(** * The Ralph loop: a shallow embedding of [hooks/ralph_loop_engine.py]
    and [hooks/ralph_init.py]

    The engine is a one-shot Python script.  It reads a JSON configuration
    and a JSON state record from disk, decides the next phase of a cyclic
    workflow, possibly runs shell commands, rewrites the state file and
    writes one JSON object on standard output.

    The embedding keeps the dynamic typing of the script: documents are
    values of type [json], and every operation the script applies to them
    ([.get], [in], [.index], [+ 1], [.lower()], ...) is a partial function
    that raises the exception Python raises.  The operating system is a
    [world]: the content of each file plus the chronological list of what
    the process did.  What the Python libraries, the locale and the shell
    compute ([json.load], [json.dump], [str.lower], [repr], the decoding
    of a file, [subprocess.run]) is not part of the repository; it is the
    interface [Runtime], over which every statement is quantified. *)

From Stdlib Require Import ZArith String Ascii List Lia.
From stdpp Require Import base option list gmap strings pretty.

Local Open Scope string_scope.
Local Open Scope Z_scope.
Local Open Scope list_scope.

(** ** Decoded JSON documents *)

(** What [json.load] returns.  Python integers are unbounded ([Z]).  A
    number with a fraction or an exponent is a Python [float]; the script
    never computes with one on a well-formed record, so it is carried as
    its lexeme.  A [dict] keeps insertion order: an association list. *)
Local Unset Elimination Schemes.
Inductive json : Type :=
| JNull
| JBool (b : bool)
| JInt (z : Z)
| JFloat (lexeme : string)
| JStr (s : string)
| JList (items : list json)
| JDict (entries : list (string * json)).
Local Set Elimination Schemes.

(** ** Exceptions and results *)

Inductive exn : Type :=
| FileNotFoundError
| NotADirectoryError
| UnicodeDecodeError
| JSONDecodeError
| RecursionError
| AttributeError
| TypeError
| ValueError
| KeyError
| IndexError
| ZeroDivisionError
| CalledProcessError.

Global Instance exn_eq_dec : EqDecision exn.
Proof. solve_decision. Defined.

(** Why [json.load] returns no document: the content is text but not
    JSON, it is not text, or the document is nested deeper than the
    interpreter recurses. *)
Inductive load_failure : Type := NotJSON | NotText | TooDeep.

Definition raised_by (f : load_failure) : exn :=
  match f with
  | NotJSON => JSONDecodeError
  | NotText => UnicodeDecodeError
  | TooDeep => RecursionError
  end.

(** [Stuck] marks the few operations on ill-typed documents whose Python
    meaning depends on what the embedding leaves out (float arithmetic,
    the code points of a string outside ASCII used as a sequence, file
    descriptors used as paths).  No [except] clause catches it and no
    statement below concludes it. *)
Inductive res (A : Type) : Type :=
| Ok (a : A)
| Raise (e : exn)
| Stuck.
Arguments Ok {A} a.
Arguments Raise {A} e.
Arguments Stuck {A}.

(** ** The world *)

Inductive event : Type :=
| EvExists (path : string)            (* os.path.exists(path) *)
| EvRead (path : string)              (* open(path, "r") *)
| EvWrite (path : string) (text : string)  (* open(path, "w") and the text written *)
| EvPrint (line : string)             (* print(line) *)
| EvRun (command : string)            (* subprocess.run(command, shell=True) *)
| EvStdout (text : string).           (* sys.stdout.write(text) *)

(** [files] holds the regular files, each with its content as stored.
    Paths are compared as written: the script only ever builds them by
    joining the same strings.  Directories are not represented: a path at
    which no file is stored is missing, unless it runs through a regular
    file (see [open_error]); every file stored can be opened, and a file
    can be created at every path. *)
Record world : Type := World {
  files : gmap string string;
  events : list event
}.

Definition log (e : event) (w : world) : world :=
  {| files := files w; events := events w ++ [e] |}.

(** ** What the Python runtime and the shell provide *)

Class Runtime : Type := {
  (** Whether the content of a file is text in the encoding [open] reads
      with (the locale's): reading other content is [UnicodeDecodeError]. *)
  decodable : string → bool;
  (** What [json.load] returns on the content of a file; [None] when it
      raises, and then [json_failure] says why. *)
  json_loads : string → option json;
  json_failure : string → load_failure;
  (** [json.dumps(obj, indent=indent)]; [json.dump] writes the same text. *)
  json_dumps : option nat → json → string;
  (** [str.lower]. *)
  str_lower : string → string;
  (** [repr] of a float, a list or a dict, as an f-string shows them. *)
  py_repr : json → string;
  (** [subprocess.run(command, shell=True)]: the command sees the whole
      world, may change any file, and exits with status zero or not. *)
  shell : string → world → gmap string string * bool
}.

(** ** The monad of the script: world passing with exceptions *)

Definition M (A : Type) : Type := world → res A * world.

Global Instance M_ret : MRet M := λ A a w, (Ok a, w).
Global Instance M_bind : MBind M := λ A B f m w,
  match m w with
  | (Ok a, w') => f a w'
  | (Raise e, w') => (Raise e, w')
  | (Stuck, w') => (Stuck, w')
  end.

Definition lift {A} (r : res A) : M A := λ w, (r, w).
Definition raise {A} (e : exn) : M A := lift (Raise e).
Definition stuck {A} : M A := lift Stuck.

(** [isinstance(raised, caught)] among the classes above: the proper
    subclasses are [json.JSONDecodeError] and [UnicodeDecodeError], both
    of [ValueError]. *)
Definition is_instance (raised caught : exn) : bool :=
  bool_decide (raised = caught)
  || ((bool_decide (raised = JSONDecodeError)
       || bool_decide (raised = UnicodeDecodeError))
      && bool_decide (caught = ValueError)).

(** [try: body except caught: handler]. *)
Definition try_except {A} (body : M A) (caught : exn) (handler : M A) : M A := λ w,
  match body w with
  | (Raise e, w') => if is_instance e caught then handler w' else (Raise e, w')
  | r => r
  end.

Definition emit (e : event) : M unit := λ w, (Ok tt, log e w).

Definition print (line : string) : M unit := emit (EvPrint line).
Definition sys_stdout_write (text : string) : M unit := emit (EvStdout text).

(** ** Python's operations on decoded documents *)

Module Py.

(** [bool(v)], as [if v:] and [if not v:] test it. *)
Definition truthy (v : json) : res bool :=
  match v with
  | JNull => Ok false
  | JBool b => Ok b
  | JInt z => Ok (negb (z =? 0))
  | JFloat _ => Stuck
  | JStr s => Ok (negb (bool_decide (s = EmptyString)))
  | JList items => Ok (negb (bool_decide (length items = 0%nat)))
  | JDict entries => Ok (negb (bool_decide (length entries = 0%nat)))
  end.

Definition int_of_bool (b : bool) : Z := if b then 1 else 0.

(** [a == b].  A string equals only the same string and [None] only
    [None]; [bool] is a subtype of [int].  Comparing two containers of
    the same kind, or anything numeric with a float, is left out. *)
Definition eq (a b : json) : res bool :=
  match a, b with
  | JStr s, JStr t => Ok (bool_decide (s = t))
  | JStr _, _ | _, JStr _ => Ok false
  | JNull, JNull => Ok true
  | JNull, _ | _, JNull => Ok false
  | JBool x, JBool y => Ok (int_of_bool x =? int_of_bool y)
  | JBool x, JInt y => Ok (int_of_bool x =? y)
  | JInt x, JBool y => Ok (x =? int_of_bool y)
  | JInt x, JInt y => Ok (x =? y)
  | JFloat _, (JBool _ | JInt _ | JFloat _) => Stuck
  | (JBool _ | JInt _), JFloat _ => Stuck
  | JList _, JList _ => Stuck
  | JDict _, JDict _ => Stuck
  | _, _ => Ok false
  end.

(** [str(v)], which is what an f-string field [{v}] shows. *)
Definition str `{Runtime} (v : json) : string :=
  match v with
  | JStr s => s
  | JNull => "None"
  | JBool true => "True"
  | JBool false => "False"
  | JInt z => pretty z
  | _ => py_repr v
  end.

(** Lookup in a [dict]: the first entry with the key. *)
Fixpoint lookup (k : string) (entries : list (string * json)) : option json :=
  match entries with
  | [] => None
  | (k', v) :: rest => if decide (k' = k) then Some v else lookup k rest
  end.

(** [d[k] = v] on a [dict]: the value is replaced where the key stands,
    a new key goes to the end. *)
Fixpoint store (k : string) (v : json) (entries : list (string * json))
  : list (string * json) :=
  match entries with
  | [] => [(k, v)]
  | (k', v') :: rest =>
      if decide (k' = k) then (k', v) :: rest else (k', v') :: store k v rest
  end.

(** [o.get(k, default)]: only a [dict] has the method. *)
Definition get (o : json) (k : string) (default : json) : res json :=
  match o with
  | JDict entries => Ok (from_option id default (lookup k entries))
  | _ => Raise AttributeError
  end.

(** [o[k] = v] for a string key. *)
Definition setitem (o : json) (k : string) (v : json) : res json :=
  match o with
  | JDict entries => Ok (JDict (store k v entries))
  | _ => Raise TypeError
  end.

(** A [str] is kept as the string of its characters where these are
    ASCII; the positions in any other string are left out. *)
Fixpoint ascii_only (s : string) : bool :=
  match s with
  | EmptyString => true
  | String c rest => (nat_of_ascii c <? 128)%nat && ascii_only rest
  end.

(** [s[i]] on a string: the character there, as a string. *)
Definition str_item (s : string) (i : Z) : res json :=
  let n := Z.of_nat (String.length s) in
  let j := if i <? 0 then i + n else i in
  if (j <? 0) || (n <=? j) then Raise IndexError
  else match String.get (Z.to_nat j) s with
       | Some c => Ok (JStr (String c EmptyString))
       | None => Raise IndexError
       end.

(** [items[i]] on a list, a negative index counting from the end. *)
Definition list_item (items : list json) (i : Z) : res json :=
  let n := Z.of_nat (length items) in
  let j := if i <? 0 then i + n else i in
  if (j <? 0) || (n <=? j) then Raise IndexError
  else match items !! Z.to_nat j with
       | Some v => Ok v
       | None => Raise IndexError
       end.

(** [c[k]]. *)
Definition getitem (c k : json) : res json :=
  match c, k with
  | JDict entries, JStr s =>
      match lookup s entries with Some v => Ok v | None => Raise KeyError end
  | JDict _, (JList _ | JDict _) => Raise TypeError
  | JDict _, _ => Raise KeyError
  | JList items, JInt i => list_item items i
  | JList items, JBool b => list_item items (int_of_bool b)
  | JList _, _ => Raise TypeError
  | JStr s, JInt i => if ascii_only s then str_item s i else Stuck
  | JStr s, JBool b => if ascii_only s then str_item s (int_of_bool b) else Stuck
  | _, _ => Raise TypeError
  end.

(** [x in c]. *)
Fixpoint list_contains (items : list json) (x : json) : res bool :=
  match items with
  | [] => Ok false
  | y :: rest =>
      match eq y x with
      | Ok true => Ok true
      | Ok false => list_contains rest x
      | Raise e => Raise e
      | Stuck => Stuck
      end
  end.

Definition contains (c x : json) : res bool :=
  match c with
  | JDict entries =>
      match x with
      | JList _ | JDict _ => Raise TypeError
      | JStr s => Ok (bool_decide (is_Some (lookup s entries)))
      | _ => Ok false
      end
  | JList items => list_contains items x
  | JStr s =>
      match x with
      | JStr t =>
          if ascii_only s then Ok (bool_decide (is_Some (String.index 0 t s)))
          else Stuck
      | _ => Raise TypeError
      end
  | _ => Raise TypeError
  end.

(** [seq.index(x)] on a list: the first position holding a value equal
    to [x], [ValueError] when there is none. *)
Fixpoint index_from (items : list json) (x : json) (i : Z) : res Z :=
  match items with
  | [] => Raise ValueError
  | y :: rest =>
      match eq y x with
      | Ok true => Ok i
      | Ok false => index_from rest x (i + 1)
      | Raise e => Raise e
      | Stuck => Stuck
      end
  end.

(** [seq.index(x)]; on a string, the first position where the string
    [x] starts. *)
Definition index (seq x : json) : res Z :=
  match seq with
  | JList items => index_from items x 0
  | JStr s =>
      match x with
      | JStr t =>
          if ascii_only s then
            match String.index 0 t s with
            | Some n => Ok (Z.of_nat n)
            | None => Raise ValueError
            end
          else Stuck
      | _ => Raise TypeError
      end
  | _ => Raise AttributeError
  end.

(** [len(c)]. *)
Definition len (c : json) : res Z :=
  match c with
  | JList items => Ok (Z.of_nat (length items))
  | JDict entries => Ok (Z.of_nat (length entries))
  | JStr s => if ascii_only s then Ok (Z.of_nat (String.length s)) else Stuck
  | _ => Raise TypeError
  end.

(** [a % b] on integers: the sign of the divisor, as [Z.modulo]. *)
Definition mod_ (a b : Z) : res Z :=
  if b =? 0 then Raise ZeroDivisionError else Ok (a mod b).

(** [v + 1]. *)
Definition add1 (v : json) : res json :=
  match v with
  | JInt z => Ok (JInt (z + 1))
  | JBool b => Ok (JInt (int_of_bool b + 1))
  | JFloat _ => Stuck
  | _ => Raise TypeError
  end.

(** [v.lower()]: only a [str] has the method. *)
Definition lower `{Runtime} (v : json) : res string :=
  match v with
  | JStr s => Ok (str_lower s)
  | _ => Raise AttributeError
  end.

End Py.

(** ** [os.path] on POSIX *)

Module os_path.

Definition starts_with_sep (b : string) : bool :=
  match b with
  | String c _ => bool_decide (c = "/"%char)
  | EmptyString => false
  end.

Fixpoint ends_with_sep (p : string) : bool :=
  match p with
  | EmptyString => false
  | String c EmptyString => bool_decide (c = "/"%char)
  | String _ rest => ends_with_sep rest
  end.

(** One turn of the loop of [posixpath.join]: an absolute component
    restarts the path, otherwise it is appended after one separator. *)
Definition join_step (path b : string) : string :=
  if starts_with_sep b then b
  else if bool_decide (path = EmptyString) || ends_with_sep path then path +:+ b
  else path +:+ "/" +:+ b.

Definition join_str (a : string) (p : list string) : string :=
  fold_left join_step p a.

(** [os.path.join(a, *p)]: a first argument that is not a path is a
    [TypeError]. *)
Definition join (a : json) (p : list string) : res string :=
  match a with
  | JStr s => Ok (join_str s p)
  | _ => Raise TypeError
  end.

(** [os.path.exists(path)]. An integer would name a file descriptor. *)
Definition exists_ (path : json) : M bool :=
  match path with
  | JStr p => λ w, (Ok (bool_decide (is_Some (files w !! p))), log (EvExists p) w)
  | JInt _ | JBool _ => stuck
  | _ => raise TypeError
  end.

End os_path.

(** ** Files, commands and the engine *)

Definition newline : string := String (ascii_of_nat 10) EmptyString.

(** The directories [open(p)] walks through: the prefixes of [p] that
    end before a separator. *)
Fixpoint parents_from (seen p : string) : list string :=
  match p with
  | EmptyString => []
  | String c rest =>
      let deeper := parents_from (seen +:+ String c EmptyString) rest in
      if bool_decide (c = "/"%char) && negb (bool_decide (seen = EmptyString))
      then seen :: deeper
      else deeper
  end.

Definition parents (p : string) : list string := parents_from EmptyString p.

(** One of them is a regular file. *)
Definition through_file (fs : gmap string string) (p : string) : bool :=
  existsb (λ d, bool_decide (is_Some (fs !! d))) (parents p).

(** What [open(p, "r")] raises when no file is stored at [p]:
    [NotADirectoryError] (ENOTDIR) when the path runs through a regular
    file, [FileNotFoundError] (ENOENT) otherwise. *)
Definition open_error (fs : gmap string string) (p : string) : exn :=
  if through_file fs p then NotADirectoryError else FileNotFoundError.

Section Engine.

Context `{Runtime}.

(** [os.environ], read once by the script. *)
Variable environ : gmap string string.

(** [with open(path, "r") as f]: the file, which is its content. *)
Definition open_read (path : json) : M string :=
  match path with
  | JStr p => λ w,
      (match files w !! p with
       | Some content => Ok content
       | None => Raise (open_error (files w) p)
       end, log (EvRead p) w)
  | JInt _ | JBool _ => stuck
  | _ => raise TypeError
  end.

(** [f.read()]: the content, decoded. *)
Definition f_read (content : string) : M string :=
  if decodable content then mret content else raise UnicodeDecodeError.

(** [with open(path, "w") as f: f.write(text)]: the file is created or
    replaced.  No [except] clause of the script is about a write. *)
Definition open_write (path : json) (text : string) : M unit :=
  match path with
  | JStr p => λ w,
      (Ok tt, {| files := <[p := text]> (files w);
                 events := events w ++ [EvWrite p text] |})
  | JInt _ | JBool _ => stuck
  | _ => raise TypeError
  end.

(** [json.load(f)]: the document; or [json.JSONDecodeError] when the
    text is not JSON, [UnicodeDecodeError] when the content is not text,
    [RecursionError] when the document is nested too deep. *)
Definition json_load (content : string) : M json :=
  match json_loads content with
  | Some v => mret v
  | None => raise (raised_by (json_failure content))
  end.

(** [subprocess.run(command, shell=True, check=True)]: a non-zero exit
    status is [CalledProcessError]. *)
Definition subprocess_run (command : json) : M unit :=
  match command with
  | JStr c => λ w,
      let '(fs, ok) := shell c w in
      (if ok then Ok tt else Raise CalledProcessError,
       {| files := fs; events := events w ++ [EvRun c] |})
  | JList _ | JDict _ => stuck
  | _ => raise TypeError
  end.

(** [run_command] (lines 10-20). *)
Definition run_command (command : json) : M bool :=
  given ← lift (Py.truthy command);
  if negb given then mret true
  else
    print ("[Ralph Engine] Running: " +:+ Py.str command);;
    try_except
      (subprocess_run command;; mret true)
      CalledProcessError
      (print ("[Ralph Engine] Command failed: " +:+ Py.str command);;
       mret false).

(** [main] (lines 22-145) is cut at the numbered comments of the
    source; each piece takes the local variables it reads.  A [return]
    in the middle of the function ends the invocation: the piece
    answers [None], and [main] stops with [mret tt]. *)

Definition CONFIG_PATH : string :=
  os_path.join_str ".gemini" ["ralph"; "config.json"].
Definition DEFAULT_STATE_FILE : string :=
  os_path.join_str ".gemini" ["ralph"; "state.json"].
Definition DEFAULT_PROMPTS_DIR : string :=
  os_path.join_str ".gemini" ["ralph"; "prompts"].

(** 1. Load Configuration (lines 24-30). *)
Definition load_configuration : M (option json) :=
  try_except
    (text ← open_read (JStr CONFIG_PATH);
     config ← json_load text;
     mret (Some config))
    FileNotFoundError
    (mret None).

(** 3. Load State (lines 38-45). *)
Definition load_state (STATE_FILE : json) : M (option json) :=
  present ← os_path.exists_ STATE_FILE;
  if negb present then mret None
  else
    try_except
      (text ← open_read STATE_FILE;
       state ← json_load text;
       mret (Some state))
      JSONDecodeError
      (mret None).

(** 5. Determine Transition (lines 54-94): [next_phase] and the state
    with its iteration updated, or [None] where the source returns. *)
Definition determine_transition (config state current_status : json)
  : M (option (json * json)) :=
  phases ← lift (Py.get config "phases" (JList []));
  current_phase ← lift (Py.get state "phase" JNull);
  defined ← lift (Py.truthy phases);
  if negb defined then
    print "[Ralph Engine] Error: No phases defined in .gemini/ralph/config.json";;
    mret None
  else
  current_idx ← try_except
    (lift (Py.index phases current_phase))
    ValueError
    (mret (-1));
  failed ← lift (Py.eq current_status (JStr "FAILED"));
  if failed : bool then
    (* --- FAILURE RECOVERY --- *)
    print ("[Ralph Engine] Phase " +:+ Py.str current_phase
           +:+ " FAILED. Initiating recovery...");;
    cleanup_cmd ← lift (Py.get config "cleanup_command" JNull);
    has_cleanup ← lift (Py.truthy cleanup_cmd);
    let reset : M (option (json * json)) :=
      next_phase ← lift (Py.getitem phases (JInt 0));
      iteration ← lift (Py.get state "iteration" (JInt 1));
      bumped ← lift (Py.add1 iteration);
      state ← lift (Py.setitem state "iteration" bumped);
      mret (Some (next_phase, state)) in
    if has_cleanup : bool then
      cleaned ← run_command cleanup_cmd;
      if negb cleaned then
        print "[Ralph Engine] Cleanup failed. Aborting loop.";;
        mret None
      else reset
    else reset
  else
    (* --- SUCCESS TRANSITION --- *)
    count ← lift (Py.len phases);
    next_idx ← lift (Py.mod_ (current_idx + 1) count);
    next_phase ← lift (Py.getitem phases (JInt next_idx));
    if next_idx =? 0 then
      iteration ← lift (Py.get state "iteration" (JInt 1));
      bumped ← lift (Py.add1 iteration);
      state ← lift (Py.setitem state "iteration" bumped);
      mret (Some (next_phase, state))
    else mret (Some (next_phase, state)).

(** 6. Execute Pre-Phase Scripts (lines 99-104). *)
Definition execute_pre_phase_scripts (config next_phase : json) : M unit :=
  phase_scripts ← lift (Py.get config "phase_scripts" (JDict []));
  scripted ← lift (Py.contains phase_scripts next_phase);
  if scripted : bool then
    script ← lift (Py.getitem phase_scripts next_phase);
    passed ← run_command script;
    if negb passed then
      print ("[Ralph Engine] Pre-phase script for " +:+ Py.str next_phase
             +:+ " failed.")
    else mret tt
  else mret tt.

(** 7. Update State (lines 107-114). *)
Definition update_state (STATE_FILE state next_phase : json) : M json :=
  state ← lift (Py.setitem state "phase" next_phase);
  state ← lift (Py.setitem state "status" (JStr "ACTIVE"));
  open_write STATE_FILE (json_dumps (Some 2%nat) state);;
  mret state.

(** 8. Load Next Prompt (lines 120-127): the content and the path. *)
Definition load_next_prompt (PROMPTS_DIR next_phase : json) : M string :=
  lowered ← lift (Py.lower next_phase);
  let prompt_filename := lowered +:+ ".md" in
  prompt_path ← lift (os_path.join PROMPTS_DIR [prompt_filename]);
  try_except
    (f ← open_read (JStr prompt_path);
     f_read f)
    FileNotFoundError
    (mret ("Error: Prompt file '" +:+ prompt_path
           +:+ "' not found for phase " +:+ Py.str next_phase +:+ ".")).

(** 9. Construct the response (lines 133-140). *)
Definition construct_response (state next_phase : json)
    (next_prompt_content : string) : M json :=
  let full_prompt :=
    "[" +:+ Py.str next_phase +:+ " PHASE]" +:+ newline +:+ newline
    +:+ next_prompt_content in
  iteration ← lift (Py.get state "iteration" (JInt 1));
  mret (JDict [
    ("clearContext", JBool true);
    ("decision", JStr "deny");
    ("reason", JStr full_prompt);
    ("systemMessage", JStr ("Transitioning to " +:+ Py.str next_phase
       +:+ " phase (Iteration " +:+ Py.str iteration +:+ ")"))
  ]).

Definition main : M unit :=
  (* 1. Load Configuration *)
  loaded ← load_configuration;
  match loaded with
  | None => mret tt
  | Some config =>
  (* 2. Resolve Paths *)
  let PROJECT_DIR := default "." (environ !! "GEMINI_PROJECT_DIR") in
  STATE_FILE ← lift (Py.get config "state_file" (JStr DEFAULT_STATE_FILE));
  PROMPTS_DIR ← lift (Py.get config "prompts_dir" (JStr DEFAULT_PROMPTS_DIR));
  (* 3. Load State *)
  loaded ← load_state STATE_FILE;
  match loaded with
  | None => mret tt
  | Some state =>
  (* 4. Check Agent Status *)
  current_status ← lift (Py.get state "status" JNull);
  acts ← lift (Py.list_contains [JStr "COMPLETED"; JStr "FAILED"] current_status);
  if negb acts then mret tt
  else
  (* 5. Determine Transition *)
  arm ← determine_transition config state current_status;
  match arm with
  | None => mret tt
  | Some (next_phase, state) =>
  (* 6. Execute Pre-Phase Scripts *)
  execute_pre_phase_scripts config next_phase;;
  (* 7. Update State *)
  state ← update_state STATE_FILE state next_phase;
  (* 8. Load Next Prompt *)
  next_prompt_content ← load_next_prompt PROMPTS_DIR next_phase;
  (* 9. Construct the response *)
  response ← construct_response state next_phase next_prompt_content;
  (* 10. Output JSON to CLI *)
  sys_stdout_write (json_dumps None response)
  end end end.

End Engine.

(** ** The bootstrapper: [hooks/ralph_init.py] *)

Section Bootstrapper.

Context `{Runtime}.

(** [sys.argv]. *)
Variable argv : list string.

Definition INIT_CONFIG_PATH : string := "ralph_config.json".
Definition INIT_DEFAULT_STATE_FILE : string := ".ralph_state.json".
Definition INIT_DEFAULT_PROMPTS_DIR : string := "prompts".

Definition INIT_NO_CONFIG : string :=
  "[Ralph Init] Error: 'ralph_config.json' not found. Run '/setup_ralph' first.".
Definition INIT_NO_PHASES : string :=
  "[Ralph Init] Error: No phases defined in config.".

(** The record of a loop that starts (lines 30-36). *)
Definition fresh_state (initial_phase : json) : json :=
  JDict [
    ("status", JStr "ACTIVE");
    ("phase", initial_phase);
    ("iteration", JInt 1);
    ("history", JList []);
    ("metrics", JDict [])
  ].

(** [init] (lines 8-54).  A [return] in the middle ends the call. *)
Definition init : M unit :=
  (* 1. Load Config *)
  loaded ← try_except
    (text ← open_read (JStr INIT_CONFIG_PATH);
     config ← json_load text;
     mret (Some config))
    FileNotFoundError
    (print INIT_NO_CONFIG;;
     mret None);
  match loaded with
  | None => mret tt
  | Some config =>
  (* 2. Get Initial Phase *)
  phases ← lift (Py.get config "phases" (JList []));
  defined ← lift (Py.truthy phases);
  if negb defined then print INIT_NO_PHASES
  else
  initial_phase ← lift (Py.getitem phases (JInt 0));
  (* 3. Create/Reset State *)
  state_file ← lift (Py.get config "state_file" (JStr INIT_DEFAULT_STATE_FILE));
  let state := fresh_state initial_phase in
  open_write state_file (json_dumps (Some 2%nat) state);;
  print ("[Ralph Init] Loop Initialized. Phase: " +:+ Py.str initial_phase);;
  print ("[Ralph Init] State saved to: " +:+ Py.str state_file);;
  (* 4. Optional: Print First-Phase Prompt *)
  if bool_decide ("--print-prompt" ∈ argv) then
    prompts_dir ← lift (Py.get config "prompts_dir" (JStr INIT_DEFAULT_PROMPTS_DIR));
    lowered ← lift (Py.lower initial_phase);
    prompt_path ← lift (os_path.join prompts_dir [lowered +:+ ".md"]);
    try_except
      (f ← open_read (JStr prompt_path);
       text ← f_read f;
       print ("[" +:+ Py.str initial_phase +:+ " PHASE]" +:+ newline +:+ newline
              +:+ text))
      FileNotFoundError
      (print ("Error: Prompt file '" +:+ prompt_path +:+ "' not found."))
  else
    print (newline +:+ "[Ralph Init] Ready to start! The first phase is '"
           +:+ Py.str initial_phase +:+ "'.");;
    print "To begin, just say: 'Start the loop' or '/ralph'."
  end.

End Bootstrapper.

(** * The vocabulary of the statements

    Names for the worlds, records and lines of output the engine
    produces, so that the statements below can say what it did. *)

Section Vocabulary.

Context `{Runtime}.

(** The world in which [run_command] starts the command [c]: the line
    announcing it is printed. *)
Definition announce (c : string) (w : world) : world :=
  log (EvPrint ("[Ralph Engine] Running: " +:+ c)) w.

(** Whether [c], run from [w] by [run_command], exits with status zero. *)
Definition exit_ok (c : string) (w : world) : bool :=
  (shell c (announce c w)).2.

(** The world [c] leaves behind. *)
Definition after_run (c : string) (w : world) : world :=
  {| files := (shell c (announce c w)).1;
     events := events (announce c w) ++ [EvRun c] |}.

(** The line printed when no phase is configured. *)
Definition NO_PHASES : string :=
  "[Ralph Engine] Error: No phases defined in .gemini/ralph/config.json".

(** What [state["iteration"] = state.get("iteration", 1) + 1] stores. *)
Definition bump (state : list (string * json)) : res (list (string * json)) :=
  match Py.add1 (default (JInt 1) (Py.lookup "iteration" state)) with
  | Ok v => Ok (Py.store "iteration" v state)
  | Raise e => Raise e
  | Stuck => Stuck
  end.

(** The line printed when recovery starts. *)
Definition recovering (current_phase : json) : event :=
  EvPrint ("[Ralph Engine] Phase " +:+ Py.str current_phase
           +:+ " FAILED. Initiating recovery...").

(** The lines printed when the cleanup command fails. *)
Definition CLEANUP_FAILED : event :=
  EvPrint "[Ralph Engine] Cleanup failed. Aborting loop.".

Definition command_failed (c : string) : event :=
  EvPrint ("[Ralph Engine] Command failed: " +:+ c).

(** A command is absent ([null]) or a string. *)
Definition optional_command (v : json) : bool :=
  match v with JNull | JStr _ => true | _ => false end.

(** [phase_scripts] is absent, or a dict of optional commands. *)
Definition scripts_typed (config : list (string * json)) : bool :=
  match Py.lookup "phase_scripts" config with
  | None => true
  | Some (JDict scripts) => forallb (λ kv, optional_command kv.2) scripts
  | Some _ => false
  end.

(** What running a command adds to the log. *)
Definition engine_event (e : event) : Prop :=
  match e with EvPrint _ | EvRun _ => True | _ => False end.

(** [w'] is [w] after prints and commands only. *)
Definition after_commands (w w' : world) : Prop :=
  ∃ new, events w' = events w ++ new ∧ Forall engine_event new.

(** The engine finds the configuration record [config], which names
    the state file [path], and in it the state record [state]. *)
Definition loads (w : world) (config : list (string * json)) (path : string)
    (state : list (string * json)) : Prop :=
  (∃ text, files w !! CONFIG_PATH = Some text
           ∧ json_loads text = Some (JDict config))
  ∧ default (JStr DEFAULT_STATE_FILE) (Py.lookup "state_file" config) = JStr path
  ∧ (∃ text, files w !! path = Some text
             ∧ json_loads text = Some (JDict state)).

(** The world once both documents are read. *)
Definition loaded (path : string) (w : world) : world :=
  log (EvRead path) (log (EvExists path) (log (EvRead CONFIG_PATH) w)).

(** The record step 7 persists: phase and status overwritten. *)
Definition arrive (q : string) (state : list (string * json))
  : list (string * json) :=
  Py.store "status" (JStr "ACTIVE") (Py.store "phase" (JStr q) state).

(** The prompt file of phase [q], the text that stands in for it when
    it is missing, and the object written on standard output. *)
Definition prompt_path (dir q : string) : string :=
  os_path.join_str dir [str_lower q +:+ ".md"].

Definition placeholder (path q : string) : string :=
  "Error: Prompt file '" +:+ path +:+ "' not found for phase " +:+ q +:+ ".".

Definition payload (q content : string) (iteration : json) : json :=
  JDict [
    ("clearContext", JBool true);
    ("decision", JStr "deny");
    ("reason", JStr ("[" +:+ q +:+ " PHASE]" +:+ newline +:+ newline +:+ content));
    ("systemMessage", JStr ("Transitioning to " +:+ q +:+ " phase (Iteration "
       +:+ Py.str iteration +:+ ")"))
  ].

(** What opening the file at [p] and reading it gives. *)
Definition read_outcome (fs : gmap string string) (p : string) : res string :=
  match fs !! p with
  | Some content =>
      if decodable content then Ok content else Raise UnicodeDecodeError
  | None => Raise (open_error fs p)
  end.

(** The prompt file at [p] can be read, or it is missing in the way step
    8 recovers from. *)
Definition available (fs : gmap string string) (p : string) : bool :=
  match fs !! p with
  | Some content => decodable content
  | None => negb (through_file fs p)
  end.

(** What step 8 hands on for the prompt file [prompt] of phase [q]: its
    text, the placeholder when it is missing, or the exception that
    opening or reading it raises otherwise. *)
Definition resolved (fs : gmap string string) (prompt q : string)
  : res string :=
  match read_outcome fs prompt with
  | Raise FileNotFoundError => Ok (placeholder prompt q)
  | r => r
  end.

(** The world after steps 7 to 10, entered from [w], when the prompt
    file is [available]. *)
Definition entered (dir path q : string) (state : list (string * json))
    (w : world) : world :=
  let text := json_dumps (Some 2%nat) (JDict (arrive q state)) in
  let fs := <[path := text]> (files w) in
  let prompt := prompt_path dir q in
  let content := default (placeholder prompt q) (fs !! prompt) in
  let iteration := default (JInt 1) (Py.lookup "iteration" (arrive q state)) in
  {| files := fs;
     events := events w ++ [EvWrite path text; EvRead prompt;
                            EvStdout (json_dumps None (payload q content iteration))] |}.

(** Steps 7 to 10 from [w], whatever the prompt file is: the state is
    written, the prompt file is opened and read, and the payload goes to
    standard output unless that raised. *)
Definition delivered (dir path q : string) (state : list (string * json))
    (w : world) : res unit * world :=
  let text := json_dumps (Some 2%nat) (JDict (arrive q state)) in
  let fs := <[path := text]> (files w) in
  let prompt := prompt_path dir q in
  let iteration := default (JInt 1) (Py.lookup "iteration" (arrive q state)) in
  let reached := events w ++ [EvWrite path text; EvRead prompt] in
  match resolved fs prompt q with
  | Ok content =>
      (Ok tt,
       {| files := fs;
          events := reached
                    ++ [EvStdout (json_dumps None (payload q content iteration))] |})
  | Raise e => (Raise e, {| files := fs; events := reached |})
  | Stuck => (Stuck, {| files := fs; events := reached |})
  end.

(** The phase that follows in the cycle [names], as the specification
    has it: the first one after a failure, after the last one and after
    a phase that is none of the names; otherwise the one after the first
    occurrence of the phase. *)
Definition next_in_cycle (names : list string) (status : string)
    (phase : json) : option string :=
  if bool_decide (status = "FAILED") then names !! 0%nat
  else
    match phase with
    | JStr p =>
        match list_find (λ name, name = p) names with
        | Some (i, _) => names !! ((i + 1) mod length names)%nat
        | None => names !! 0%nat
        end
    | _ => names !! 0%nat
    end.

(** [v] is an item of the sequence [c]: an element of a list, a
    character of a string. *)
Definition item_of (c v : json) : Prop :=
  match c with
  | JList items => v ∈ items
  | JStr s => ∃ a, a ∈ list_ascii_of_string s ∧ v = JStr (String a EmptyString)
  | _ => False
  end.

(** Every event [m] adds satisfies [P], and a value it returns
    satisfies [Q]. *)
Definition adds {A} (P : event → Prop) (Q : A → Prop) (m : M A) : Prop :=
  ∀ w, ∃ new, events (m w).2 = events w ++ new ∧ Forall P new
              ∧ ∀ a, (m w).1 = Ok a → Q a.

(** What the engine may write: the loaded record with only [phase],
    [status] and [iteration] touched, into the state file. *)
Definition engine_key (k : string) : bool :=
  bool_decide (k = "phase") || bool_decide (k = "status")
  || bool_decide (k = "iteration").

(** [persisted] has the entries of [state] under every other key, in
    the same order. *)
Definition framed (state persisted : list (string * json)) : Prop :=
  filter (λ kv, negb (engine_key kv.1) = true) persisted
  = filter (λ kv, negb (engine_key kv.1) = true) state.

Definition writes_framed (path : string) (state : list (string * json))
    (e : event) : Prop :=
  match e with
  | EvWrite p text =>
      ∃ persisted, p = path
        ∧ text = json_dumps (Some 2%nat) (JDict persisted)
        ∧ framed state persisted
  | _ => True
  end.

(** The decision step writes nothing and hands on the loaded record,
    at most with [iteration] stored. *)
Definition hands_on (state : list (string * json))
    (arm : option (json * json)) : Prop :=
  match arm with
  | Some (_, JDict persisted) => framed state persisted
  | Some _ => False
  | None => True
  end.

(** The cleanup command is absent, or it runs and exits with status
    zero, in the world where recovery has been announced. *)
Definition cleanup_passes (config state : list (string * json)) (path : string)
    (w : world) : Prop :=
  match default JNull (Py.lookup "cleanup_command" config) with
  | JNull => True
  | JStr c =>
      c = EmptyString ∨
      exit_ok c (log (recovering (default JNull (Py.lookup "phase" state)))
                     (loaded path w)) = true
  | _ => False
  end.

(** The state record of the data model: an integer iteration, if any. *)
Definition state_typed (state : list (string * json)) : Prop :=
  ∃ it, default (JInt 1) (Py.lookup "iteration" state) = JInt it.

(** The two errors the guard on an empty phase list is there to prevent. *)
Definition arithmetic (e : exn) : Prop :=
  e = ZeroDivisionError ∨ e = IndexError.

End Vocabulary.

(** ** More vocabulary: what a transition and the bootstrapper leave *)

Section Outcomes.

Context `{Runtime}.

(** What step 5 hands to step 6: an item of the configured phases, and
    the loaded record, with its iteration counted up or as it was. *)
Definition advance_of (config state : list (string * json))
    (next_phase state1 : json) : Prop :=
  item_of (default (JList []) (Py.lookup "phases" config)) next_phase
  ∧ (state1 = JDict state
     ∨ ∃ bumped, bump state = Ok bumped ∧ state1 = JDict bumped).

Definition decides (config state : list (string * json))
    (arm : option (json * json)) : Prop :=
  match arm with
  | Some (next_phase, state1) => advance_of config state next_phase state1
  | None => True
  end.

(** The record a write holds: what step 5 handed on, with [phase] and
    [status] stored. *)
Definition advanced (config state persisted : list (string * json)) : Prop :=
  ∃ next_phase state1,
    advance_of config state next_phase (JDict state1)
    ∧ persisted
      = Py.store "status" (JStr "ACTIVE") (Py.store "phase" next_phase state1).

Definition writes_advance (path : string) (config state : list (string * json))
    (e : event) : Prop :=
  match e with
  | EvWrite p text =>
      p = path
      ∧ ∃ persisted, text = json_dumps (Some 2%nat) (JDict persisted)
                     ∧ advanced config state persisted
  | _ => True
  end.

(** The world after step 7 alone: the state file written from [w]. *)
Definition stored (path q : string) (state : list (string * json))
    (w : world) : world :=
  let text := json_dumps (Some 2%nat) (JDict (arrive q state)) in
  {| files := <[path := text]> (files w);
     events := events w ++ [EvWrite path text] |}.

(** The line printed when the command before a phase fails. *)
Definition pre_phase_failed (q : string) : event :=
  EvPrint ("[Ralph Engine] Pre-phase script for " +:+ q +:+ " failed.").

(** A transition is due: both documents load, the records are those of
    the data model, phases are configured, and the status is COMPLETED,
    or FAILED with a cleanup that passes. *)
Definition transitions (w : world) (config : list (string * json))
    (path : string) (state : list (string * json)) (names : list string)
    : Prop :=
  loads w config path state
  ∧ Py.lookup "phases" config = Some (JList (JStr <$> names))
  ∧ names ≠ []
  ∧ (Py.lookup "status" state = Some (JStr "COMPLETED")
     ∨ (Py.lookup "status" state = Some (JStr "FAILED")
        ∧ cleanup_passes config state path w))
  ∧ state_typed state
  ∧ scripts_typed config = true.

(** The world [init] has made when it comes to its step 4. *)
Definition initialised (path : string) (initial_phase : json) (w : world)
    : world :=
  let text := json_dumps (Some 2%nat) (fresh_state initial_phase) in
  {| files := <[path := text]> (files w);
     events := events w ++ [
       EvRead INIT_CONFIG_PATH;
       EvWrite path text;
       EvPrint ("[Ralph Init] Loop Initialized. Phase: " +:+ Py.str initial_phase);
       EvPrint ("[Ralph Init] State saved to: " +:+ path)] |}.

(** The two lines that end [init] when no prompt is asked for. *)
Definition ready (initial_phase : json) : list event := [
  EvPrint (newline +:+ "[Ralph Init] Ready to start! The first phase is '"
           +:+ Py.str initial_phase +:+ "'.");
  EvPrint "To begin, just say: 'Start the loop' or '/ralph'."
].

End Outcomes.

(** * A runtime and some projects to run examples on

    Closed examples need some runtime.  This one reads ASCII, decodes JSON
    by table, renders
    documents on one line without escapes (whatever the indent), lowers
    ASCII letters, and has a shell in which [exit 1] fails and every other
    command succeeds; no command touches a file. *)

Module Demo.

Definition quote : string := String (ascii_of_nat 34) EmptyString.

Fixpoint join_with (sep : string) (parts : list string) : string :=
  match parts with
  | [] => EmptyString
  | [x] => x
  | x :: rest => x +:+ sep +:+ join_with sep rest
  end.

Fixpoint render (v : json) : string :=
  match v with
  | JNull => "null"
  | JBool true => "true"
  | JBool false => "false"
  | JInt z => pretty z
  | JFloat lexeme => lexeme
  | JStr s => quote +:+ s +:+ quote
  | JList items => "[" +:+ join_with ", " (map render items) +:+ "]"
  | JDict entries =>
      "{" +:+ join_with ", "
        (map (λ kv, quote +:+ fst kv +:+ quote +:+ ": " +:+ render (snd kv)) entries)
      +:+ "}"
  end.

Definition lower_ascii (c : ascii) : ascii :=
  let n := nat_of_ascii c in
  if (65 <=? n)%nat && (n <=? 90)%nat then ascii_of_nat (n + 32) else c.

Fixpoint lower (s : string) : string :=
  match s with
  | EmptyString => EmptyString
  | String c rest => String (lower_ascii c) (lower rest)
  end.

(** The documents the examples decode: every other text is malformed. *)
Definition runtime (table : list (string * json)) : Runtime := {|
  decodable := Py.ascii_only;
  json_failure text := if Py.ascii_only text then NotJSON else NotText;
  json_loads text := Py.lookup text table;
  json_dumps _ v := render v;
  str_lower := lower;
  py_repr := render;
  shell command w := (files w, negb (bool_decide (command = "exit 1")))
|}.

(** Three phases, a cleanup command that passes, a command before PLAN. *)
Definition plan_build_test : list (string * json) := [
  ("phases", JList [JStr "PLAN"; JStr "BUILD"; JStr "TEST"]);
  ("cleanup_command", JStr "git checkout .");
  ("phase_scripts", JDict [("PLAN", JStr "make clean")])
].

(** Two phases and a cleanup command that fails. *)
Definition plan_build_strict : list (string * json) := [
  ("phases", JList [JStr "PLAN"; JStr "BUILD"]);
  ("cleanup_command", JStr "exit 1")
].

Definition a_b : list (string * json) := [
  ("phases", JList [JStr "A"; JStr "B"])
].

Definition unconfigured : list (string * json) := [
  ("phases", JList [])
].

(** A prompts directory that is the configuration file itself. *)
Definition prompts_in_config : list (string * json) := [
  ("phases", JList [JStr "PLAN"; JStr "BUILD"; JStr "TEST"]);
  ("prompts_dir", JStr ".gemini/ralph/config.json")
].

Definition test_completed : list (string * json) := [
  ("status", JStr "COMPLETED");
  ("phase", JStr "TEST");
  ("iteration", JInt 3);
  ("history", JList [JStr "PLAN ok"; JStr "BUILD ok"]);
  ("metrics", JDict [("runs", JInt 7)]);
  ("current_plan", JStr "split the parser")
].

Definition build_failed : list (string * json) := [
  ("phase", JStr "BUILD");
  ("status", JStr "FAILED");
  ("iteration", JInt 2)
].

Definition unknown_completed : list (string * json) := [
  ("phase", JStr "UNKNOWN");
  ("status", JStr "COMPLETED")
].

Definition plan_active : list (string * json) := [
  ("status", JStr "ACTIVE");
  ("phase", JStr "PLAN");
  ("iteration", JInt 1);
  ("history", JList []);
  ("metrics", JDict [])
].

Definition documents : list (list (string * json)) := [
  plan_build_test; plan_build_strict; a_b; unconfigured; prompts_in_config;
  test_completed; build_failed; unknown_completed; plan_active
].

(** The runtime of the examples: a file decodes when it holds the
    rendering of one of the documents above. *)
Definition rt : Runtime :=
  runtime (map (λ d, (render (JDict d), JDict d)) documents).

(** A project in the working directory, nothing done yet. *)
Definition disk (config state : list (string * json)) : world :=
  {| files := {[ CONFIG_PATH := render (JDict config);
                 DEFAULT_STATE_FILE := render (JDict state) ]};
     events := [] |}.

(** A configuration file that is not JSON. *)
Definition broken : world :=
  {| files := {[ CONFIG_PATH := "{ phases: PLAN";
                 DEFAULT_STATE_FILE := render (JDict test_completed) ]};
     events := [] |}.

(** The same project under [/srv/app], none in the working directory,
    and the environment that points there. *)
Definition elsewhere : world :=
  {| files := {[ "/srv/app/.gemini/ralph/config.json" := render (JDict plan_build_test);
                 "/srv/app/.gemini/ralph/state.json" := render (JDict test_completed) ]};
     events := [] |}.

Definition environ_app : gmap string string :=
  {[ "GEMINI_PROJECT_DIR" := "/srv/app" ]}.

Definition environ_other : gmap string string :=
  {[ "GEMINI_PROJECT_DIR" := "/srv/other" ]}.

End Demo.

(** * More projects

    Projects that go wrong in one way each, and working directories for
    the bootstrapper, over the runtime of the examples above with a
    longer table of documents. *)

Module Cases.

(** A command before BUILD that fails. *)
Definition hooked : list (string * json) := [
  ("phases", JList [JStr "PLAN"; JStr "BUILD"; JStr "TEST"]);
  ("phase_scripts", JDict [("BUILD", JStr "exit 1")])
].

(** A prompts directory that is a number. *)
Definition misdirected : list (string * json) := [
  ("phases", JList [JStr "PLAN"; JStr "BUILD"]);
  ("prompts_dir", JInt 5)
].

(** A configuration that names its state file. *)
Definition shared : list (string * json) := [
  ("phases", JList [JStr "PLAN"; JStr "BUILD"]);
  ("state_file", JStr "loop/state.json")
].

Definition plan_completed : list (string * json) := [
  ("status", JStr "COMPLETED");
  ("phase", JStr "PLAN");
  ("iteration", JInt 1);
  ("history", JList []);
  ("metrics", JDict [])
].

(** An iteration that is not a number. *)
Definition test_spoiled : list (string * json) := [
  ("status", JStr "COMPLETED");
  ("phase", JStr "TEST");
  ("iteration", JStr "three")
].

Definition b_completed : list (string * json) := [
  ("status", JStr "COMPLETED");
  ("phase", JStr "B");
  ("iteration", JInt 1)
].

(** A configuration whose phases are the string PLAN. *)
Definition lettered : list (string * json) := [
  ("phases", JStr "PLAN")
].

Definition p_completed : list (string * json) := [
  ("status", JStr "COMPLETED");
  ("phase", JStr "P");
  ("iteration", JInt 1)
].

(** The records a transition out of [b_completed] can write. *)
Definition settled : list (list (string * json)) := [
  arrive "A" b_completed;
  arrive "B" b_completed;
  arrive "A" (Py.store "iteration" (JInt 2) b_completed);
  arrive "B" (Py.store "iteration" (JInt 2) b_completed)
].

Definition documents : list json :=
  (JDict <$> Demo.documents
             ++ [hooked; misdirected; shared; plan_completed; test_spoiled;
                 b_completed; lettered; p_completed]
             ++ settled)
  ++ [JList []].

(** The runtime of these examples: a file decodes when it holds the
    rendering of one of the documents above. *)
Definition rt : Runtime :=
  Demo.runtime (map (λ d, (Demo.render d, d)) documents).

(** Nothing on disk. *)
Definition bare : world := {| files := ∅; events := [] |}.


(** A state file cut short. *)
Definition corrupt (config : list (string * json)) : world :=
  {| files := {[ CONFIG_PATH := Demo.render (JDict config);
                 DEFAULT_STATE_FILE := "{ status: " ]};
     events := [] |}.

(** A state file that is not text: one byte, 255. *)
Definition garbled (config : list (string * json)) : world :=
  {| files := {[ CONFIG_PATH := Demo.render (JDict config);
                 DEFAULT_STATE_FILE := String (ascii_of_nat 255) EmptyString ]};
     events := [] |}.

(** A configuration file that holds a list. *)
Definition listed : world :=
  {| files := {[ CONFIG_PATH := Demo.render (JList []) ]};
     events := [] |}.


(** A working directory for the bootstrapper: its configuration, and
    the state an earlier loop left. *)
Definition checkout (config old : list (string * json)) : world :=
  {| files := {[ INIT_CONFIG_PATH := Demo.render (JDict config);
                 INIT_DEFAULT_STATE_FILE := Demo.render (JDict old) ]};
     events := [] |}.


(** The configuration in both places, the bootstrapper's and the
    engine's. *)
Definition both (config : list (string * json)) : world :=
  {| files := {[ INIT_CONFIG_PATH := Demo.render (JDict config);
                 CONFIG_PATH := Demo.render (JDict config) ]};
     events := [] |}.

End Cases.

(** * Properties *)

(** ** Facts about the Python operations *)

Section PyFacts.

Implicit Types (names : list string) (entries : list (string * json)).

Lemma lookup_store_eq k v entries :
  Py.lookup k (Py.store k v entries) = Some v.
Proof.
  induction entries as [|[k' v'] rest IH]; simpl.
  - by rewrite decide_True.
  - destruct (decide (k' = k)) as [->|Hne]; simpl.
    + by rewrite decide_True.
    + by rewrite decide_False.
Qed.

Lemma lookup_store_ne k k' v entries :
  k ≠ k' → Py.lookup k' (Py.store k v entries) = Py.lookup k' entries.
Proof.
  intros Hne. induction entries as [|[k0 v0] rest IH]; simpl.
  - by rewrite decide_False.
  - destruct (decide (k0 = k)) as [->|Hk0]; simpl.
    + by rewrite !decide_False.
    + destruct (decide (k0 = k')); [done | apply IH].
Qed.

(** Storing under [k] leaves the entries under other keys where they
    are, in their order. *)
Lemma filter_store (keep : string → bool) k v entries :
  keep k = false →
  filter (λ kv, keep kv.1 = true) (Py.store k v entries)
  = filter (λ kv, keep kv.1 = true) entries.
Proof.
  intros Hk. induction entries as [|[k' v'] rest IH]; simpl.
  - rewrite filter_cons_False; [done | simpl; congruence].
  - destruct (decide (k' = k)) as [->|Hne].
    + rewrite !filter_cons_False; simpl; congruence.
    + rewrite !filter_cons. simpl. by rewrite IH.
Qed.

Lemma eq_str_cases s v :
  (v = JStr s ∧ Py.eq (JStr s) v = Ok true ∧ Py.eq v (JStr s) = Ok true)
  ∨ (v ≠ JStr s ∧ Py.eq (JStr s) v = Ok false ∧ Py.eq v (JStr s) = Ok false).
Proof.
  destruct v; simpl; try (right; by repeat split).
  case_bool_decide as Hs.
  - subst. left. by rewrite bool_decide_eq_true_2.
  - right. rewrite bool_decide_eq_false_2 by congruence.
    repeat split; congruence.
Qed.

Lemma eq_str_same s : Py.eq (JStr s) (JStr s) = Ok true.
Proof. simpl. by rewrite bool_decide_eq_true_2. Qed.

Lemma eq_str_l s v : v ≠ JStr s → Py.eq (JStr s) v = Ok false.
Proof. by destruct (eq_str_cases s v) as [[? _]|(_ & ? & _)]. Qed.

(** [names.index(p)] is the position of [p] when the names are distinct. *)
Lemma index_from_found names i p k :
  NoDup names → names !! i = Some p →
  Py.index_from (JStr <$> names) (JStr p) k = Ok (k + Z.of_nat i).
Proof.
  intros Hnd. revert i k.
  induction Hnd as [|x rest Hx Hnd IH]; intros i k Hi; [done|].
  cbn [fmap list_fmap Py.index_from]. destruct i as [|i]; simpl in Hi.
  - injection Hi as ->. rewrite eq_str_same. f_equal. lia.
  - rewrite eq_str_l.
    + rewrite (IH i (k + 1) Hi). f_equal. lia.
    + intros [= ->]. apply Hx. eapply list_elem_of_lookup_2, Hi.
Qed.

(** A value that is none of the names is not found. *)
Lemma index_from_missing names v k :
  (∀ s, s ∈ names → v ≠ JStr s) →
  Py.index_from (JStr <$> names) v k = Raise ValueError.
Proof.
  revert k. induction names as [|x rest IH]; intros k Hv; [done|].
  cbn [fmap list_fmap Py.index_from]. rewrite eq_str_l.
  - apply IH. intros s Hs. apply Hv. by right.
  - apply Hv. by left.
Qed.

(** On a list of strings [index] answers a position or [ValueError]. *)
Lemma index_from_strings names v k :
  Py.index_from (JStr <$> names) v k = Raise ValueError
  ∨ ∃ i, (i < length names)%nat
         ∧ Py.index_from (JStr <$> names) v k = Ok (k + Z.of_nat i).
Proof.
  revert k. induction names as [|x rest IH]; intros k; [by left|].
  cbn [fmap list_fmap Py.index_from].
  destruct (eq_str_cases x v) as [(_ & -> & _)|(_ & -> & _)].
  - right. exists 0%nat. simpl. split; [lia | f_equal; lia].
  - destruct (IH (k + 1)) as [->|(i & Hi & ->)]; [by left|].
    right. exists (S i). simpl. split; [lia | f_equal; lia].
Qed.

Lemma list_item_strings names (i : nat) q :
  names !! i = Some q →
  Py.list_item (JStr <$> names) (Z.of_nat i) = Ok (JStr q).
Proof.
  intros Hi. unfold Py.list_item.
  pose proof (lookup_lt_Some _ _ _ Hi) as Hlt.
  rewrite length_fmap.
  destruct (Z.of_nat i <? 0) eqn:Hneg; [lia|].
  destruct (Z.of_nat i <? 0) eqn:Hneg'; [lia|].
  destruct (Z.of_nat (length names) <=? Z.of_nat i) eqn:Hge; [lia|].
  simpl. by rewrite Nat2Z.id, list_lookup_fmap, Hi.
Qed.

Lemma lookup_filter (keep : string → bool) k entries :
  keep k = true →
  Py.lookup k (filter (λ kv, keep kv.1 = true) entries) = Py.lookup k entries.
Proof.
  intros Hk. induction entries as [|[k' v'] rest IH]; [done|].
  destruct (decide (k' = k)) as [->|Hne].
  - rewrite filter_cons_True by done. simpl. by rewrite !decide_True.
  - rewrite filter_cons. simpl. destruct (decide (keep k' = true)); simpl.
    + by rewrite !decide_False.
    + by rewrite decide_False.
Qed.

Lemma index_from_bounds items x k i :
  Py.index_from items x k = Ok i → k ≤ i < k + Z.of_nat (length items).
Proof.
  revert k. induction items as [|y rest IH]; intros k; [done|].
  cbn [Py.index_from length]. destruct (Py.eq y x) as [[|]| |]; try done.
  - intros [= <-]. lia.
  - intros Hi%IH. lia.
Qed.

Lemma index_from_raises items x k e :
  Py.index_from items x k = Raise e → e = ValueError.
Proof.
  revert k. induction items as [|y rest IH]; intros k; [by intros [= <-]|].
  cbn [Py.index_from]. destruct (Py.eq y x) as [[|]| |] eqn:Heq; try done.
  - apply IH.
  - intros [= <-]. by destruct y, x.
Qed.

Lemma list_item_in_range items j :
  0 ≤ j < Z.of_nat (length items) → ∃ v, Py.list_item items j = Ok v.
Proof.
  intros Hj. unfold Py.list_item.
  rewrite (proj2 (Z.ltb_ge j 0)) by lia.
  rewrite (proj2 (Z.ltb_ge j 0)) by lia.
  rewrite (proj2 (Z.leb_gt _ j)) by lia. cbn [orb].
  destruct (lookup_lt_is_Some_2 items (Z.to_nat j)) as [v ->]; [lia|]. by exists v.
Qed.

(** On a list of names [index] finds the first occurrence. *)
Lemma index_from_names names p k :
  Py.index_from (JStr <$> names) (JStr p) k
  = match list_find (λ name, name = p) names with
    | Some (i, _) => Ok (k + Z.of_nat i)
    | None => Raise ValueError
    end.
Proof.
  revert k. induction names as [|x rest IH]; intros k; [done|].
  cbn [fmap list_fmap Py.index_from Py.eq list_find].
  destruct (decide (x = p)) as [->|Hne].
  - rewrite bool_decide_eq_true_2 by done. f_equal. cbn. lia.
  - rewrite bool_decide_eq_false_2 by done. rewrite IH.
    destruct (list_find _ rest) as [[i y]|]; cbn; [f_equal; lia | done].
Qed.

Lemma get_list_ascii n s a :
  String.get n s = Some a → a ∈ list_ascii_of_string s.
Proof.
  revert n. induction s as [|c rest IH]; intros n; [done|].
  destruct n as [|n]; cbn.
  - intros [= ->]. by left.
  - intros Hn. right. by eapply IH.
Qed.

Lemma get_in_range n s :
  (n < String.length s)%nat → ∃ a, String.get n s = Some a.
Proof.
  revert n. induction s as [|c rest IH]; intros n; cbn; [lia|].
  destruct n as [|n]; [by eexists|]. intros Hn. apply IH. lia.
Qed.

Lemma str_item_in_range s j :
  0 ≤ j < Z.of_nat (String.length s) → ∃ v, Py.str_item s j = Ok v.
Proof.
  intros Hj. unfold Py.str_item.
  rewrite (proj2 (Z.ltb_ge j 0)) by lia.
  rewrite (proj2 (Z.ltb_ge j 0)) by lia.
  rewrite (proj2 (Z.leb_gt _ j)) by lia. cbn [orb].
  destruct (get_in_range (Z.to_nat j) s) as [a ->]; [lia|]. by eexists.
Qed.

(** What [c[k]] answers for an integer [k] is an item of [c]. *)
Lemma getitem_item_of (c : json) k v :
  Py.getitem c (JInt k) = Ok v → item_of c v.
Proof.
  destruct c as [| | | |s|items|]; try done; cbn [Py.getitem item_of].
  - destruct (Py.ascii_only s); [|done]. unfold Py.str_item.
    destruct (_ || _); [done|].
    destruct (String.get _ s) as [a|] eqn:Ha; [|done]. intros [= <-].
    exists a. split; [by eapply get_list_ascii | done].
  - unfold Py.list_item. destruct (_ || _); [done|].
    destruct (items !! _) as [x|] eqn:Hx; [|done]. intros [= <-].
    by eapply list_elem_of_lookup_2.
Qed.

End PyFacts.

(** ** The pieces of [main], one at a time *)

Section Steps.

Context `{Runtime}.

Implicit Types (w : world) (names : list string)
  (config state : list (string * json)).

Lemma load_configuration_ok w text (doc : json) :
  files w !! CONFIG_PATH = Some text →
  json_loads text = Some doc →
  load_configuration w = (Ok (Some doc), log (EvRead CONFIG_PATH) w).
Proof.
  intros Hfile Hdoc.
  unfold load_configuration, try_except, mbind, M_bind, open_read, json_load.
  by rewrite Hfile, Hdoc.
Qed.

Lemma load_configuration_absent w :
  files w !! CONFIG_PATH = None →
  load_configuration w
  = (if through_file (files w) CONFIG_PATH then Raise NotADirectoryError
     else Ok None,
     log (EvRead CONFIG_PATH) w).
Proof.
  intros Hfile.
  unfold load_configuration, try_except, mbind, M_bind, open_read, open_error.
  rewrite Hfile. by destruct (through_file _ _).
Qed.

Lemma load_configuration_malformed w text :
  files w !! CONFIG_PATH = Some text →
  json_loads text = None →
  load_configuration w
  = (Raise (raised_by (json_failure text)), log (EvRead CONFIG_PATH) w).
Proof.
  intros Hfile Hdoc.
  unfold load_configuration, try_except, mbind, M_bind, open_read, json_load.
  rewrite Hfile, Hdoc. by destruct (json_failure text).
Qed.

Lemma load_state_ok w path text (doc : json) :
  files w !! path = Some text →
  json_loads text = Some doc →
  load_state (JStr path) w
  = (Ok (Some doc), log (EvRead path) (log (EvExists path) w)).
Proof.
  intros Hfile Hdoc.
  unfold load_state, try_except, mbind, M_bind, os_path.exists_, open_read,
    json_load.
  rewrite Hfile. cbn. by rewrite Hfile, Hdoc.
Qed.

Lemma load_state_absent w path :
  files w !! path = None →
  load_state (JStr path) w = (Ok None, log (EvExists path) w).
Proof.
  intros Hfile. unfold load_state, mbind, M_bind, os_path.exists_.
  by rewrite Hfile.
Qed.

Lemma load_state_malformed w path text :
  files w !! path = Some text →
  json_loads text = None →
  load_state (JStr path) w
  = (match json_failure text with
     | NotJSON => Ok None
     | f => Raise (raised_by f)
     end,
     log (EvRead path) (log (EvExists path) w)).
Proof.
  intros Hfile Hdoc.
  unfold load_state, try_except, mbind, M_bind, os_path.exists_, open_read,
    json_load.
  rewrite Hfile. cbn. rewrite Hfile, Hdoc. by destruct (json_failure text).
Qed.

Lemma bind_ok {A B} (m : M A) (f : A → M B) w a w' :
  m w = (Ok a, w') → (m ≫= f) w = f a w'.
Proof. intros Hm. unfold mbind, M_bind. by rewrite Hm. Qed.

End Steps.

(** Runs [main] up to the point where both documents are loaded. *)
Ltac load_main Hloads :=
  let text := fresh "text" in
  let Hfile := fresh "Hfile" in
  let Hdoc := fresh "Hdoc" in
  let Hpath := fresh "Hpath" in
  let text' := fresh "text" in
  let Hfile' := fresh "Hfile" in
  let Hdoc' := fresh "Hdoc" in
  destruct Hloads as ((text & Hfile & Hdoc) & Hpath & (text' & Hfile' & Hdoc'));
  unfold main;
  erewrite bind_ok by (by eapply load_configuration_ok);
  cbv beta iota zeta;
  do 2 (erewrite bind_ok by reflexivity);
  cbn [Py.get]; rewrite Hpath;
  erewrite bind_ok by (by eapply load_state_ok);
  cbv beta iota zeta; cbn [Py.get];
  change (log (EvRead ?p) (log (EvExists ?p) (log (EvRead CONFIG_PATH) ?w)))
    with (loaded p w).

Section Transition.

Context `{Runtime}.

Implicit Types (w : world) (names : list string)
  (config state : list (string * json)).

Lemma run_command_skip v w : Py.truthy v = Ok false → run_command v w = (Ok true, w).
Proof. intros Hv. unfold run_command, mbind, M_bind, lift. by rewrite Hv. Qed.

Lemma run_command_str c w :
  c ≠ EmptyString →
  run_command (JStr c) w
  = if exit_ok c w then (Ok true, after_run c w)
    else (Ok false, log (EvPrint ("[Ralph Engine] Command failed: " +:+ c)) (after_run c w)).
Proof.
  intros Hc. unfold run_command, mbind, M_bind, lift, try_except, subprocess_run.
  cbn [Py.truthy]. rewrite bool_decide_eq_false_2 by done.
  cbn [negb print emit Py.str].
  unfold exit_ok, after_run, announce.
  destruct (shell c _) as [fs [|]]; reflexivity.
Qed.

Lemma determine_undefined config state status w :
  Py.truthy (default (JList []) (Py.lookup "phases" config)) = Ok false →
  determine_transition (JDict config) (JDict state) status w
  = (Ok None, log (EvPrint NO_PHASES) w).
Proof.
  intros Hfalsy. unfold determine_transition, mbind, M_bind, lift.
  cbn [Py.get]. by rewrite Hfalsy.
Qed.

Lemma determine_advance config state names i p q w :
  default (JList []) (Py.lookup "phases" config) = JList (JStr <$> names) →
  NoDup names →
  names !! i = Some p →
  names !! S i = Some q →
  Py.lookup "phase" state = Some (JStr p) →
  determine_transition (JDict config) (JDict state) (JStr "COMPLETED") w
  = (Ok (Some (JStr q, JDict state)), w).
Proof.
  intros Hphases Hnd Hi Hq Hphase.
  pose proof (lookup_lt_Some _ _ _ Hq) as Hlt.
  unfold determine_transition, mbind, M_bind, lift, try_except.
  cbn [Py.get]. rewrite Hphases, Hphase. cbn [from_option id Py.truthy Py.index].
  rewrite length_fmap, bool_decide_eq_false_2 by lia.
  rewrite (index_from_found _ _ _ _ Hnd Hi).
  cbn [negb Py.eq Py.len]. rewrite length_fmap.
  rewrite bool_decide_eq_false_2 by done.
  unfold Py.mod_. destruct (Z.of_nat (length names) =? 0) eqn:Hz; [lia|].
  replace ((0 + Z.of_nat i + 1) `mod` Z.of_nat (length names))
    with (Z.of_nat (S i)). 2:{ rewrite Z.mod_small; lia. }
  cbn [Py.getitem]. rewrite (list_item_strings _ _ _ Hq).
  by rewrite (proj2 (Z.eqb_neq (Z.of_nat (S i)) 0)) by lia.
Qed.

Lemma determine_wrap config state names i p first rest bumped w :
  default (JList []) (Py.lookup "phases" config) = JList (JStr <$> names) →
  NoDup names →
  names !! i = Some p →
  S i = length names →
  names = first :: rest →
  Py.lookup "phase" state = Some (JStr p) →
  bump state = Ok bumped →
  determine_transition (JDict config) (JDict state) (JStr "COMPLETED") w
  = (Ok (Some (JStr first, JDict bumped)), w).
Proof.
  intros Hphases Hnd Hi Hlast Hnames Hphase Hbump.
  unfold determine_transition, mbind, M_bind, lift, try_except.
  cbn [Py.get]. rewrite Hphases, Hphase. cbn [from_option id Py.truthy Py.index].
  rewrite length_fmap, bool_decide_eq_false_2 by lia.
  rewrite (index_from_found _ _ _ _ Hnd Hi).
  cbn [negb Py.eq Py.len]. rewrite length_fmap.
  rewrite bool_decide_eq_false_2 by done.
  unfold Py.mod_. destruct (Z.of_nat (length names) =? 0) eqn:Hz; [lia|].
  replace (0 + Z.of_nat i + 1) with (Z.of_nat (length names)) by lia.
  rewrite Z_mod_same_full. change 0 with (Z.of_nat 0).
  cbn [Py.getitem]. rewrite (list_item_strings _ 0%nat first) by (by rewrite Hnames).
  cbn [Z.of_nat Z.eqb]. unfold bump in Hbump.
  destruct (Py.add1 _) as [v| |]; [|done..]. injection Hbump as <-. reflexivity.
Qed.

Lemma determine_unknown config state names first rest bumped w :
  default (JList []) (Py.lookup "phases" config) = JList (JStr <$> names) →
  names = first :: rest →
  (∀ s, s ∈ names → default JNull (Py.lookup "phase" state) ≠ JStr s) →
  bump state = Ok bumped →
  determine_transition (JDict config) (JDict state) (JStr "COMPLETED") w
  = (Ok (Some (JStr first, JDict bumped)), w).
Proof.
  intros Hphases Hnames Hphase Hbump.
  unfold determine_transition, mbind, M_bind, lift, try_except.
  cbn [Py.get]. rewrite Hphases. cbn [from_option id Py.truthy Py.index].
  rewrite length_fmap, bool_decide_eq_false_2 by (rewrite Hnames; simpl; lia).
  rewrite (index_from_missing _ _ _ Hphase).
  change (is_instance ValueError ValueError) with true.
  cbn [negb Py.eq Py.len mret M_ret]. rewrite length_fmap.
  rewrite bool_decide_eq_false_2 by done.
  unfold Py.mod_. rewrite (proj2 (Z.eqb_neq _ 0)) by (rewrite Hnames; simpl; lia).
  change (-1 + 1) with 0. rewrite Z.mod_0_l by (rewrite Hnames; simpl; lia).
  change 0 with (Z.of_nat 0).
  cbn [Py.getitem]. rewrite (list_item_strings _ 0%nat first) by (by rewrite Hnames).
  cbn [Z.of_nat Z.eqb]. unfold bump in Hbump.
  destruct (Py.add1 _) as [v| |]; [|done..]. injection Hbump as <-. reflexivity.
Qed.

(** Recovery with no cleanup command to run. *)
Lemma determine_reset_plain config state names first rest bumped w :
  default (JList []) (Py.lookup "phases" config) = JList (JStr <$> names) →
  names = first :: rest →
  Py.truthy (default JNull (Py.lookup "cleanup_command" config)) = Ok false →
  bump state = Ok bumped →
  determine_transition (JDict config) (JDict state) (JStr "FAILED") w
  = (Ok (Some (JStr first, JDict bumped)),
     log (recovering (default JNull (Py.lookup "phase" state))) w).
Proof.
  intros Hphases Hnames Hcleanup Hbump.
  unfold determine_transition, mbind, M_bind, lift, try_except.
  cbn [Py.get]. rewrite Hphases. cbn [from_option id Py.truthy Py.index].
  rewrite length_fmap, bool_decide_eq_false_2 by (rewrite Hnames; simpl; lia).
  cbn [negb].
  destruct (index_from_strings names (default JNull (Py.lookup "phase" state)) 0)
    as [->|(i & _ & ->)].
  all: rewrite eq_str_same; cbn [print emit]; rewrite Hcleanup.
  all: change 0 with (Z.of_nat 0); cbn [Py.getitem].
  all: rewrite (list_item_strings _ 0%nat first) by (by rewrite Hnames).
  all: unfold bump in Hbump.
  all: destruct (Py.add1 _) as [v| |]; [|done..]; injection Hbump as <-.
  all: reflexivity.
Qed.

(** Recovery when the cleanup command runs. *)
Lemma determine_reset_cleanup config state names first rest c w :
  default (JList []) (Py.lookup "phases" config) = JList (JStr <$> names) →
  names = first :: rest →
  Py.lookup "cleanup_command" config = Some (JStr c) →
  c ≠ EmptyString →
  let w1 := log (recovering (default JNull (Py.lookup "phase" state))) w in
  determine_transition (JDict config) (JDict state) (JStr "FAILED") w
  = if exit_ok c w1 then
      (match bump state with
       | Ok bumped => Ok (Some (JStr first, JDict bumped))
       | Raise e => Raise e
       | Stuck => Stuck
       end, after_run c w1)
    else
      (Ok None, log CLEANUP_FAILED (log (command_failed c) (after_run c w1))).
Proof.
  intros Hphases Hnames Hcleanup Hc w1. subst w1. unfold recovering.
  unfold determine_transition, mbind, M_bind, lift, try_except.
  cbn [Py.get]. rewrite Hphases, Hcleanup.
  cbn [from_option id Py.truthy Py.index].
  rewrite length_fmap, bool_decide_eq_false_2 by (rewrite Hnames; simpl; lia).
  rewrite bool_decide_eq_false_2 by done.
  cbn [negb].
  destruct (index_from_strings names (default JNull (Py.lookup "phase" state)) 0)
    as [->|(i & _ & ->)].
  all: rewrite eq_str_same; cbn [print emit].
  all: try change (is_instance ValueError ValueError) with true.
  all: cbn [mret M_ret].
  all: rewrite (run_command_str c _ Hc).
  all: destruct (exit_ok c _); [|reflexivity].
  all: change 0 with (Z.of_nat 0); cbn [negb Py.getitem].
  all: rewrite (list_item_strings _ 0%nat first) by (by rewrite Hnames).
  all: unfold bump; by destruct (Py.add1 _) as [v| |].
Qed.

(** *** After the decision: steps 6 to 10 *)

Lemma after_commands_refl w : after_commands w w.
Proof. exists []. by rewrite app_nil_r. Qed.

Lemma lookup_typed k scripts v :
  forallb (λ kv, optional_command kv.2) scripts = true →
  Py.lookup k scripts = Some v → optional_command v = true.
Proof.
  induction scripts as [|[k' v'] rest IH]; [done|].
  simpl. intros [Hv Hrest]%andb_prop.
  destruct (decide (k' = k)); [by intros [= <-] | by apply IH].
Qed.

Lemma run_command_optional v w :
  optional_command v = true →
  ∃ passed w', run_command v w = (Ok passed, w')
    ∧ ∃ new, events w' = events w ++ new ∧ Forall engine_event new.
Proof.
  destruct v as [| | | |c| |]; try done; intros _.
  - exists true, w. split; [by apply run_command_skip | apply after_commands_refl].
  - destruct (decide (c = EmptyString)) as [->|Hc].
    + exists true, w. split; [by apply run_command_skip | apply after_commands_refl].
    + rewrite (run_command_str c w Hc). destruct (exit_ok c w).
      * eexists _, _. split; [done|]. eexists. cbn. rewrite <- app_assoc.
        split; [done|]. by repeat constructor.
      * eexists _, _. split; [done|]. eexists. cbn. rewrite <- !app_assoc.
        split; [done|]. by repeat constructor.
Qed.

Lemma pre_phase_typed config q w :
  scripts_typed config = true →
  ∃ w', execute_pre_phase_scripts (JDict config) (JStr q) w = (Ok tt, w')
    ∧ after_commands w w'.
Proof.
  unfold scripts_typed. intros Htyped.
  unfold execute_pre_phase_scripts, mbind, M_bind, lift. cbn [Py.get].
  destruct (Py.lookup "phase_scripts" config) as [[| | | | | |scripts]|]; try done.
  - cbn [from_option id Py.contains Py.getitem].
    destruct (Py.lookup q scripts) as [v|] eqn:Hq.
    + rewrite bool_decide_eq_true_2 by done.
      destruct (run_command_optional v w (lookup_typed _ _ _ Htyped Hq))
        as (passed & w' & -> & new & Hnew & Hev).
      destruct passed; cbn [negb].
      * by exists w'; split; [|exists new].
      * eexists. split; [done|]. exists (new ++ [EvPrint
          ("[Ralph Engine] Pre-phase script for " +:+ q +:+ " failed.")]).
        cbn. rewrite Hnew, <- app_assoc. split; [done|].
        apply Forall_app. by repeat constructor.
    + rewrite bool_decide_eq_false_2 by (by intros [? ?]).
      exists w. split; [done | apply after_commands_refl].
  - cbn. exists w. split; [done | apply after_commands_refl].
Qed.

(** *** Loading *)

Lemma loaded_files path w : files (loaded path w) = files w.
Proof. reflexivity. Qed.

Lemma loaded_events path w :
  events (loaded path w)
  = events w ++ [EvRead CONFIG_PATH; EvExists path; EvRead path].
Proof. unfold loaded, log. cbn. by rewrite <- !app_assoc. Qed.

Lemma ignores_other v :
  v ≠ JStr "COMPLETED" → v ≠ JStr "FAILED" →
  Py.list_contains [JStr "COMPLETED"; JStr "FAILED"] v = Ok false.
Proof.
  intros Hc Hf. cbn [Py.list_contains]. by rewrite !eq_str_l.
Qed.

Lemma read_outcome_run p w :
  (f ← open_read (JStr p); f_read f) w
  = (read_outcome (files w) p, log (EvRead p) w).
Proof.
  unfold mbind, M_bind, open_read, f_read, read_outcome.
  destruct (files w !! p) as [content|]; [|done]. by destruct (decodable content).
Qed.

(** Step 8 on a phase name and a directory. *)
Lemma load_next_prompt_resolved dir q w :
  load_next_prompt (JStr dir) (JStr q) w
  = (resolved (files w) (prompt_path dir q) q, log (EvRead (prompt_path dir q)) w).
Proof.
  unfold load_next_prompt. erewrite bind_ok by reflexivity.
  erewrite bind_ok by reflexivity. unfold try_except.
  rewrite read_outcome_run. unfold resolved, prompt_path, placeholder.
  cbn [os_path.join_str fold_left Py.str].
  destruct (read_outcome _ _) as [content|[]|]; reflexivity.
Qed.

Lemma resolved_available fs prompt q :
  available fs prompt = true →
  resolved fs prompt q = Ok (default (placeholder prompt q) (fs !! prompt)).
Proof.
  unfold available, resolved, read_outcome, open_error.
  destruct (fs !! prompt) as [content|]; cbn.
  - by intros ->.
  - by intros ->%negb_true_iff.
Qed.

Lemma delivered_available dir path q state w :
  available (<[path := json_dumps (Some 2%nat) (JDict (arrive q state))]> (files w))
    (prompt_path dir q) = true →
  delivered dir path q state w = (Ok tt, entered dir path q state w).
Proof.
  intros Hav. unfold delivered, entered. cbv zeta.
  rewrite (resolved_available _ _ _ Hav). by rewrite <- app_assoc.
Qed.

Lemma delivered_files dir path q state w :
  files (delivered dir path q state w).2
  = <[path := json_dumps (Some 2%nat) (JDict (arrive q state))]> (files w).
Proof. unfold delivered. cbv zeta. by destruct (resolved _ _ _). Qed.

(** Steps 7 to 10, from what steps 5 and 6 gave. *)
Lemma main_enters_from env w config path state status q state1 w4 w5 :
  loads w config path state →
  default JNull (Py.lookup "status" state) = JStr status →
  status = "COMPLETED" ∨ status = "FAILED" →
  determine_transition (JDict config) (JDict state) (JStr status) (loaded path w)
  = (Ok (Some (JStr q, JDict state1)), w4) →
  execute_pre_phase_scripts (JDict config) (JStr q) w4 = (Ok tt, w5) →
  main env w
  = match default (JStr DEFAULT_PROMPTS_DIR) (Py.lookup "prompts_dir" config) with
    | JStr dir => delivered dir path q state1 w5
    | _ => (Raise TypeError, stored path q state1 w5)
    end.
Proof.
  intros Hloads Hstatus Hacts Hdet Hpre. load_main Hloads.
  rewrite Hstatus.
  erewrite bind_ok by reflexivity.
  erewrite bind_ok by (by destruct Hacts as [-> | ->]).
  cbn [negb]. erewrite bind_ok by exact Hdet. cbv beta iota.
  erewrite bind_ok by exact Hpre.
  erewrite bind_ok by reflexivity.
  fold (arrive q state1).
  destruct (default (JStr DEFAULT_PROMPTS_DIR) (Py.lookup "prompts_dir" config))
    as [| | | |dir| |]; try reflexivity.
  unfold mbind at 1, M_bind at 1. rewrite load_next_prompt_resolved.
  unfold delivered. cbv zeta. cbn [files log events].
  destruct (resolved _ _ _) as [content|e|].
  all: unfold construct_response, mbind, M_bind, lift, sys_stdout_write, emit,
    log, payload.
  all: cbn; by rewrite <- !app_assoc.
Qed.

Lemma main_enters env w config path state status q state1 w4 :
  loads w config path state →
  default JNull (Py.lookup "status" state) = JStr status →
  status = "COMPLETED" ∨ status = "FAILED" →
  determine_transition (JDict config) (JDict state) (JStr status) (loaded path w)
  = (Ok (Some (JStr q, JDict state1)), w4) →
  scripts_typed config = true →
  ∃ w5, after_commands w4 w5
    ∧ files (main env w).2
      = <[path := json_dumps (Some 2%nat) (JDict (arrive q state1))]> (files w5)
    ∧ main env w
      = match default (JStr DEFAULT_PROMPTS_DIR)
                (Py.lookup "prompts_dir" config) with
        | JStr dir => delivered dir path q state1 w5
        | _ => (Raise TypeError, stored path q state1 w5)
        end.
Proof.
  intros Hloads Hstatus Hacts Hdet Htyped.
  destruct (pre_phase_typed config q w4 Htyped) as (w5 & Hpre & Hw5).
  exists w5. split; [done|].
  rewrite (main_enters_from env w config path state status q state1 w4 w5
             Hloads Hstatus Hacts Hdet Hpre).
  split; [|done].
  destruct (default _ (Py.lookup "prompts_dir" config));
    try reflexivity. apply delivered_files.
Qed.

(** *** A small logic of what a computation adds to the log *)

Lemma adds_ret {A} P (Q : A → Prop) a : Q a → adds P Q (mret a).
Proof.
  intros HQ w. exists []. cbn. rewrite app_nil_r.
  split; [done|]. split; [constructor | by intros ? [= <-]].
Qed.

Lemma adds_lift {A} P (Q : A → Prop) (r : res A) :
  (∀ a, r = Ok a → Q a) → adds P Q (lift r).
Proof.
  intros HQ w. exists []. cbn. rewrite app_nil_r.
  split; [done|]. split; [constructor | done].
Qed.

Lemma adds_bind {A B} P (R : A → Prop) (Q : B → Prop) (m : M A) (f : A → M B) :
  adds P R m → (∀ a, R a → adds P Q (f a)) → adds P Q (m ≫= f).
Proof.
  intros Hm Hf w. destruct (Hm w) as (new & Hev & HP & HR).
  unfold mbind, M_bind. destruct (m w) as [[a|e|] w1]; cbn in *.
  - destruct (Hf a (HR a eq_refl) w1) as (new' & Hev' & HP' & HQ).
    exists (new ++ new'). rewrite Hev', Hev, app_assoc.
    repeat split; [by apply Forall_app | done].
  - exists new. by repeat split.
  - exists new. by repeat split.
Qed.

Lemma adds_try {A} P (Q : A → Prop) (body handler : M A) caught :
  adds P Q body → adds P Q handler → adds P Q (try_except body caught handler).
Proof.
  intros Hb Hh w. destruct (Hb w) as (new & Hev & HP & HQ).
  unfold try_except. destruct (body w) as [[a|e|] w1]; cbn in *.
  - exists new. by repeat split.
  - destruct (is_instance e caught).
    + destruct (Hh w1) as (new' & Hev' & HP' & HQ').
      exists (new ++ new'). rewrite Hev', Hev, app_assoc.
      repeat split; [by apply Forall_app | done].
    + exists new. by repeat split.
  - exists new. by repeat split.
Qed.

Lemma adds_emit P (Q : unit → Prop) e : P e → Q tt → adds P Q (emit e).
Proof.
  intros HP HQ w. exists [e]. cbn.
  split; [done|]. split; [by repeat constructor | by intros []].
Qed.

Local Ltac silent :=
  exists []; cbn; rewrite app_nil_r; split; [done|]; split; [constructor | done].

Lemma adds_open_read P path :
  (∀ p, P (EvRead p)) → adds P (λ _, True) (open_read path).
Proof.
  intros HP w. destruct path as [| | | |p| |]; try silent.
  exists [EvRead p]. cbn. split; [done|]. split; [by repeat constructor | done].
Qed.

Lemma adds_subprocess_run P command :
  (∀ c, P (EvRun c)) → adds P (λ _, True) (subprocess_run command).
Proof.
  intros HP w. destruct command as [| | | |c| |]; try silent.
  exists [EvRun c]. cbn. destruct (shell c w). cbn.
  split; [done|]. split; [by repeat constructor | done].
Qed.

Lemma adds_run_command P command :
  (∀ c, P (EvRun c)) → (∀ s, P (EvPrint s)) →
  adds P (λ _, True) (run_command command).
Proof.
  intros Hrun Hprint. unfold run_command.
  apply adds_bind with (R := (λ _, True)); [by apply adds_lift|]. intros given _.
  destruct (negb given); [by apply adds_ret|].
  apply adds_bind with (R := (λ _, True)); [by apply adds_emit|]. intros _ _.
  apply adds_try.
  - apply adds_bind with (R := (λ _, True)); [by apply adds_subprocess_run|].
    intros _ _. by apply adds_ret.
  - apply adds_bind with (R := (λ _, True)); [by apply adds_emit|].
    intros _ _. by apply adds_ret.
Qed.

Lemma framed_store state persisted k v :
  engine_key k = true → framed state persisted →
  framed state (Py.store k v persisted).
Proof.
  intros Hk Hfr. unfold framed. rewrite <- Hfr.
  apply (filter_store (λ k, negb (engine_key k))). by rewrite Hk.
Qed.

Lemma bump_hands_on P state (next_phase : json) :
  adds P (hands_on state)
    (iteration ← lift (Py.get (JDict state) "iteration" (JInt 1));
     bumped ← lift (Py.add1 iteration);
     state' ← lift (Py.setitem (JDict state) "iteration" bumped);
     mret (Some (next_phase, state'))).
Proof.
  apply adds_bind with (R := (λ _, True)); [by apply adds_lift|]. intros it _.
  apply adds_bind with (R := (λ _, True)); [by apply adds_lift|]. intros bumped _.
  apply adds_bind with (R := λ s, ∃ persisted, s = JDict persisted ∧ framed state persisted).
  - apply adds_lift. intros s [= <-]. eexists. split; [done|].
    by apply framed_store.
  - intros s (persisted & -> & Hfr). by apply adds_ret.
Qed.

Lemma determine_adds P config state (status : json) :
  (∀ s, P (EvPrint s)) → (∀ c, P (EvRun c)) →
  adds P (hands_on state)
    (determine_transition (JDict config) (JDict state) status).
Proof.
  intros Hprint Hrun. unfold determine_transition.
  apply adds_bind with (R := (λ _, True)); [by apply adds_lift|]. intros phases _.
  apply adds_bind with (R := (λ _, True)); [by apply adds_lift|]. intros current_phase _.
  apply adds_bind with (R := (λ _, True)); [by apply adds_lift|]. intros defined _.
  destruct (negb defined).
  { apply adds_bind with (R := (λ _, True)); [by apply adds_emit|].
    intros _ _. by apply adds_ret. }
  apply adds_bind with (R := (λ _, True)).
  { apply adds_try; [by apply adds_lift | by apply adds_ret]. }
  intros current_idx _.
  apply adds_bind with (R := (λ _, True)); [by apply adds_lift|]. intros failed _.
  destruct failed.
  - apply adds_bind with (R := (λ _, True)); [by apply adds_emit|]. intros _ _.
    apply adds_bind with (R := (λ _, True)); [by apply adds_lift|]. intros cleanup_cmd _.
    apply adds_bind with (R := (λ _, True)); [by apply adds_lift|]. intros has_cleanup _.
    cbv zeta.
    assert (adds P (hands_on state)
      (next_phase ← lift (Py.getitem phases (JInt 0));
       iteration ← lift (Py.get (JDict state) "iteration" (JInt 1));
       bumped ← lift (Py.add1 iteration);
       state' ← lift (Py.setitem (JDict state) "iteration" bumped);
       mret (Some (next_phase, state')))) as Hreset.
    { apply adds_bind with (R := (λ _, True)); [by apply adds_lift|].
      intros next_phase _. apply bump_hands_on. }
    destruct has_cleanup; [|done].
    apply adds_bind with (R := (λ _, True)); [by apply adds_run_command|].
    intros cleaned _. destruct (negb cleaned); [|done].
    apply adds_bind with (R := (λ _, True)); [by apply adds_emit|].
    intros _ _. by apply adds_ret.
  - apply adds_bind with (R := (λ _, True)); [by apply adds_lift|]. intros count _.
    apply adds_bind with (R := (λ _, True)); [by apply adds_lift|]. intros next_idx _.
    apply adds_bind with (R := (λ _, True)); [by apply adds_lift|]. intros next_phase _.
    destruct (next_idx =? 0); [apply bump_hands_on|].
    by apply adds_ret.
Qed.

Lemma pre_phase_adds P (config next_phase : json) :
  (∀ s, P (EvPrint s)) → (∀ c, P (EvRun c)) →
  adds P (λ _, True) (execute_pre_phase_scripts config next_phase).
Proof.
  intros Hprint Hrun. unfold execute_pre_phase_scripts.
  apply adds_bind with (R := (λ _, True)); [by apply adds_lift|]. intros phase_scripts _.
  apply adds_bind with (R := (λ _, True)); [by apply adds_lift|]. intros scripted _.
  destruct scripted; [|by apply adds_ret].
  apply adds_bind with (R := (λ _, True)); [by apply adds_lift|]. intros script _.
  apply adds_bind with (R := (λ _, True)); [by apply adds_run_command|].
  intros passed _. destruct (negb passed); [by apply adds_emit | by apply adds_ret].
Qed.

Lemma update_state_adds P path state persisted (next_phase : json) :
  framed state persisted →
  (∀ persisted', framed state persisted' →
     P (EvWrite path (json_dumps (Some 2%nat) (JDict persisted')))) →
  adds P (λ _, True) (update_state (JStr path) (JDict persisted) next_phase).
Proof.
  intros Hfr HP w. unfold update_state, mbind, M_bind, lift. cbn.
  eexists [_]. split; [done|]. split; [|done].
  repeat constructor. apply HP.
  apply framed_store; [done|]. by apply framed_store.
Qed.

Lemma load_next_prompt_adds P (dir next_phase : json) :
  (∀ p, P (EvRead p)) → adds P (λ _, True) (load_next_prompt dir next_phase).
Proof.
  intros Hread. unfold load_next_prompt.
  apply adds_bind with (R := (λ _, True)); [by apply adds_lift|]. intros lowered _.
  apply adds_bind with (R := (λ _, True)); [by apply adds_lift|]. intros prompt_path _.
  apply adds_try; [|by apply adds_ret].
  apply adds_bind with (R := (λ _, True)); [by apply adds_open_read|].
  intros f _. unfold f_read. destruct (decodable f); [by apply adds_ret|].
  by apply adds_lift.
Qed.

Lemma construct_response_adds P (state next_phase : json) content :
  adds P (λ _, True) (construct_response state next_phase content).
Proof.
  unfold construct_response.
  apply adds_bind with (R := (λ _, True)); [by apply adds_lift|]. intros it _.
  by apply adds_ret.
Qed.

Lemma next_in_cycle_member names status (phase : json) q :
  next_in_cycle names status phase = Some q → q ∈ names.
Proof.
  unfold next_in_cycle. intros Hq.
  repeat case_match; by eapply list_elem_of_lookup_2.
Qed.

(** What [index] finds on a list of names, and the phase that follows. *)
Lemma index_next names (v : json) :
  (Py.index_from (JStr <$> names) v 0 = Raise ValueError
   ∧ next_in_cycle names "COMPLETED" v = names !! 0%nat)
  ∨ ∃ i, (i < length names)%nat
      ∧ Py.index_from (JStr <$> names) v 0 = Ok (0 + Z.of_nat i)
      ∧ next_in_cycle names "COMPLETED" v
        = names !! ((i + 1) mod length names)%nat.
Proof.
  unfold next_in_cycle. rewrite bool_decide_eq_false_2 by done.
  destruct v as [| | | |p| |].
  1-4,6-7: left; split; [by apply index_from_missing | done].
  rewrite index_from_names.
  destruct (list_find _ names) as [[i y]|] eqn:Hfind; [|by left].
  right. exists i. apply list_find_Some in Hfind as (Hi & _ & _).
  split; [by eapply lookup_lt_Some | done].
Qed.

(** A completed phase either moves on within the cycle, or wraps to the
    first phase and counts an iteration (also when the phase is none of
    the configured ones): either way the phase is the next in the
    cycle. *)
Lemma determine_completed_next config state names first rest w :
  default (JList []) (Py.lookup "phases" config) = JList (JStr <$> names) →
  names = first :: rest →
  ∃ q, next_in_cycle names "COMPLETED" (default JNull (Py.lookup "phase" state))
       = Some q
    ∧ (determine_transition (JDict config) (JDict state) (JStr "COMPLETED") w
       = (Ok (Some (JStr q, JDict state)), w)
       ∨ determine_transition (JDict config) (JDict state) (JStr "COMPLETED") w
         = (match bump state with
            | Ok bumped => Ok (Some (JStr q, JDict bumped))
            | Raise e => Raise e
            | Stuck => Stuck
            end, w)).
Proof.
  intros Hphases Hnames.
  assert (0 < Z.of_nat (length names)) as Hlen by (rewrite Hnames; simpl; lia).
  assert (names !! 0%nat = Some first) as Hfirst by (by rewrite Hnames).
  unfold determine_transition, mbind, M_bind, lift, try_except.
  cbn [Py.get]. rewrite Hphases. cbn [from_option id Py.truthy Py.index].
  rewrite length_fmap, bool_decide_eq_false_2 by lia.
  cbn [negb Py.eq Py.len]. rewrite length_fmap.
  rewrite bool_decide_eq_false_2 by done.
  unfold Py.mod_. rewrite (proj2 (Z.eqb_neq _ 0)) by lia.
  destruct (index_next names (default JNull (Py.lookup "phase" state)))
    as [[-> ->]|(i & Hi & -> & ->)].
  - exists first. split; [done|]. right.
    change (is_instance ValueError ValueError) with true.
    cbn [mret M_ret]. change (-1 + 1) with 0. rewrite Z.mod_0_l by lia.
    change 0 with (Z.of_nat 0). cbn [Py.getitem].
    rewrite (list_item_strings _ 0%nat first Hfirst).
    cbn [Z.of_nat Z.eqb]. unfold bump. by destruct (Py.add1 _).
  - destruct (decide (S i = length names)) as [Hlast|Hmore].
    + exists first. split.
      { replace (i + 1)%nat with (length names) by lia.
        by rewrite Nat.Div0.mod_same. }
      right. replace (0 + Z.of_nat i + 1) with (Z.of_nat (length names)) by lia.
      rewrite Z_mod_same_full. change 0 with (Z.of_nat 0). cbn [Py.getitem].
      rewrite (list_item_strings _ 0%nat first Hfirst).
      cbn [Z.of_nat Z.eqb]. unfold bump. by destruct (Py.add1 _).
    + destruct (lookup_lt_is_Some_2 names (S i)) as [q Hq]; [lia|].
      exists q. split.
      { rewrite Nat.mod_small by lia. by rewrite Nat.add_1_r. }
      left.
      replace ((0 + Z.of_nat i + 1) `mod` Z.of_nat (length names))
        with (Z.of_nat (S i)) by (rewrite Z.mod_small; lia).
      cbn [Py.getitem]. rewrite (list_item_strings _ _ _ Hq).
      by rewrite (proj2 (Z.eqb_neq (Z.of_nat (S i)) 0)) by lia.
Qed.

(** *** Consequences for whole invocations *)

Lemma arrive_phase q state :
  Py.lookup "phase" (arrive q state) = Some (JStr q).
Proof.
  unfold arrive. rewrite lookup_store_ne by done. apply lookup_store_eq.
Qed.

Lemma arrive_status q state :
  Py.lookup "status" (arrive q state) = Some (JStr "ACTIVE").
Proof. apply lookup_store_eq. Qed.

Lemma arrive_iteration q state :
  Py.lookup "iteration" (arrive q state) = Py.lookup "iteration" state.
Proof. unfold arrive. by rewrite !lookup_store_ne. Qed.

Lemma bump_integer state it :
  default (JInt 1) (Py.lookup "iteration" state) = JInt it →
  bump state = Ok (Py.store "iteration" (JInt (it + 1)) state).
Proof. intros Hit. unfold bump. by rewrite Hit. Qed.

Lemma determine_reset_passing config state names first rest bumped path w :
  default (JList []) (Py.lookup "phases" config) = JList (JStr <$> names) →
  names = first :: rest →
  cleanup_passes config state path w →
  bump state = Ok bumped →
  ∃ w4, determine_transition (JDict config) (JDict state) (JStr "FAILED")
          (loaded path w)
        = (Ok (Some (JStr first, JDict bumped)), w4).
Proof.
  intros Hphases Hnames Hpass Hbump. unfold cleanup_passes in Hpass.
  destruct (default JNull (Py.lookup "cleanup_command" config))
    as [| | | |c| |] eqn:Hcmd; try done.
  - eexists. eapply determine_reset_plain; try done. by rewrite Hcmd.
  - destruct (decide (c = EmptyString)) as [->|Hc].
    + eexists. eapply determine_reset_plain; try done. by rewrite Hcmd.
    + destruct Hpass as [|Hpass]; [done|].
      assert (Py.lookup "cleanup_command" config = Some (JStr c)) as Hcmd'.
      { destruct (Py.lookup "cleanup_command" config); [by simpl in Hcmd; subst | done]. }
      pose proof (determine_reset_cleanup config state names first rest c
        (loaded path w) Hphases Hnames Hcmd' Hc) as Hdet.
      cbv zeta in Hdet. rewrite Hpass, Hbump in Hdet. by eexists.
Qed.

Lemma framed_lookup state persisted k :
  framed state persisted → engine_key k = false →
  Py.lookup k persisted = Py.lookup k state.
Proof.
  intros Hfr Hk.
  rewrite <- (lookup_filter (λ k, negb (engine_key k)) k persisted) by (by rewrite Hk).
  rewrite <- (lookup_filter (λ k, negb (engine_key k)) k state) by (by rewrite Hk).
  by rewrite Hfr.
Qed.

(** Malformed configuration content is not caught: the decoding error
    leaves [main]. *)
Lemma main_malformed_configuration env w text :
  files w !! CONFIG_PATH = Some text →
  json_loads text = None →
  main env w
  = (Raise (raised_by (json_failure text)), log (EvRead CONFIG_PATH) w).
Proof.
  intros Hfile Hdoc. unfold main, mbind, M_bind.
  by rewrite (load_configuration_malformed _ _ Hfile Hdoc).
Qed.

Lemma main_stops env w config path state status w4 :
  loads w config path state →
  default JNull (Py.lookup "status" state) = JStr status →
  status = "COMPLETED" ∨ status = "FAILED" →
  determine_transition (JDict config) (JDict state) (JStr status) (loaded path w)
  = (Ok None, w4) →
  main env w = (Ok tt, w4).
Proof.
  intros Hloads Hstatus Hacts Hdet. load_main Hloads. rewrite Hstatus.
  erewrite bind_ok by reflexivity.
  erewrite bind_ok by (by destruct Hacts as [-> | ->]).
  cbn [negb]. by erewrite bind_ok by exact Hdet.
Qed.

Lemma main_ignores env w config path state :
  loads w config path state →
  default JNull (Py.lookup "status" state) ≠ JStr "COMPLETED" →
  default JNull (Py.lookup "status" state) ≠ JStr "FAILED" →
  main env w = (Ok tt, loaded path w).
Proof.
  intros Hloads Hc Hf. load_main Hloads.
  erewrite bind_ok by reflexivity.
  by erewrite bind_ok by (unfold lift; by rewrite (ignores_other _ Hc Hf)).
Qed.

Lemma after_commands_trans w1 w2 w3 :
  after_commands w1 w2 → after_commands w2 w3 → after_commands w1 w3.
Proof.
  intros (new1 & Hev1 & Hnew1) (new2 & Hev2 & Hnew2).
  exists (new1 ++ new2). rewrite Hev2, Hev1, app_assoc.
  split; [done | by apply Forall_app].
Qed.

Lemma determine_after_commands config state (status : json) w :
  after_commands w (determine_transition (JDict config) (JDict state) status w).2.
Proof.
  destruct (determine_adds engine_event config state status
              (λ _, I) (λ _, I) w) as (new & Hev & Hnew & _).
  by exists new.
Qed.

(** What a due transition decides: the phase that follows in the cycle,
    and the loaded record with its iteration counted up or as it was. *)
Lemma determine_next config state names status path w :
  default (JList []) (Py.lookup "phases" config) = JList (JStr <$> names) →
  names ≠ [] →
  status = "COMPLETED" ∨ (status = "FAILED" ∧ cleanup_passes config state path w) →
  state_typed state →
  ∃ q state1 w4,
    next_in_cycle names status (default JNull (Py.lookup "phase" state)) = Some q
    ∧ (state1 = state ∨ bump state = Ok state1)
    ∧ after_commands (loaded path w) w4
    ∧ determine_transition (JDict config) (JDict state) (JStr status)
        (loaded path w)
      = (Ok (Some (JStr q, JDict state1)), w4).
Proof.
  intros Hphases Hnames Hstatus (it & Hit).
  destruct names as [|first rest]; [done|].
  pose proof (bump_integer _ _ Hit) as Hbump.
  assert (∃ q state1 w4,
    next_in_cycle (first :: rest) status
      (default JNull (Py.lookup "phase" state)) = Some q
    ∧ (state1 = state ∨ bump state = Ok state1)
    ∧ determine_transition (JDict config) (JDict state) (JStr status)
        (loaded path w) = (Ok (Some (JStr q, JDict state1)), w4))
    as (q & state1 & w4 & Hq & Hst1 & Hdet).
  { destruct Hstatus as [->|[-> Hpass]].
    - destruct (determine_completed_next config state _ first rest
        (loaded path w) Hphases eq_refl) as (q & Hq & [Hdet|Hdet]).
      + exists q, state, (loaded path w). auto.
      + rewrite Hbump in Hdet. eexists q, _, _. split; [done|].
        split; [by right | done].
    - destruct (determine_reset_passing config state _ first rest _ path w
        Hphases eq_refl Hpass Hbump) as (w4 & Hdet).
      eexists first, _, w4. split; [done|]. split; [by right | done]. }
  exists q, state1, w4. split; [done|]. split; [done|]. split; [|done].
  pose proof (determine_after_commands config state (JStr status)
                (loaded path w)) as Hw4.
  by rewrite Hdet in Hw4.
Qed.

(** **** The guard makes the arithmetic of step 5 safe *)

Lemma run_command_raises command w e :
  (run_command command w).1 = Raise e → e = TypeError.
Proof.
  unfold run_command, mbind, M_bind, lift, try_except, subprocess_run.
  change (is_instance TypeError CalledProcessError) with false.
  destruct command as [|[|]|z|?|c|items|entries]; cbn; try done.
  - by intros [= <-].
  - destruct (z =? 0); cbn; [done | by intros [= <-]].
  - destruct (bool_decide (c = EmptyString)); cbn; [done|].
    by destruct (shell c _) as [fs [|]].
  - by destruct (bool_decide (length items = 0%nat)).
  - by destruct (bool_decide (length entries = 0%nat)).
Qed.

Lemma bump_raises (state next_phase : json) w e :
  ((iteration ← lift (Py.get state "iteration" (JInt 1));
    bumped ← lift (Py.add1 iteration);
    state' ← lift (Py.setitem state "iteration" bumped);
    mret (Some (next_phase, state'))) w).1 = Raise e →
  ¬ arithmetic e.
Proof.
  unfold mbind, M_bind, lift.
  destruct state; cbn; try by intros [= <-] [|].
  destruct (Py.add1 _) as [v|e'|] eqn:Hadd; cbn; try done.
  intros [= <-]. destruct (default _ _); simplify_eq/=; by intros [|].
Qed.

Lemma str_index_raises s (x : json) e :
  Py.index (JStr s) x = Raise e → e = ValueError ∨ e = TypeError.
Proof.
  cbn [Py.index]. destruct x; try (intros [= <-]; by right).
  destruct (Py.ascii_only s); [|done].
  destruct (String.index _ _ _); [done|]. intros [= <-]. by left.
Qed.

(** The two arms of step 5, on a sequence of [n > 0] phases. *)
Lemma arms_never_arithmetic c (state status current_phase phases : json)
    n idx w e :
  0 < n →
  Py.len phases = Ok n ∨ Py.len phases = Stuck →
  (∀ j, 0 ≤ j < n →
     (∃ v, Py.getitem phases (JInt j) = Ok v)
     ∨ Py.getitem phases (JInt j) = Stuck) →
  ((failed ← lift (Py.eq status (JStr "FAILED"));
    if failed : bool then
      print ("[Ralph Engine] Phase " +:+ Py.str current_phase
             +:+ " FAILED. Initiating recovery...");;
      cleanup_cmd ← lift (Py.get (JDict c) "cleanup_command" JNull);
      has_cleanup ← lift (Py.truthy cleanup_cmd);
      let reset : M (option (json * json)) :=
        next_phase ← lift (Py.getitem phases (JInt 0));
        iteration ← lift (Py.get state "iteration" (JInt 1));
        bumped ← lift (Py.add1 iteration);
        state ← lift (Py.setitem state "iteration" bumped);
        mret (Some (next_phase, state)) in
      if has_cleanup : bool then
        cleaned ← run_command cleanup_cmd;
        if negb cleaned then
          print "[Ralph Engine] Cleanup failed. Aborting loop.";;
          mret None
        else reset
      else reset
    else
      count ← lift (Py.len phases);
      next_idx ← lift (Py.mod_ (idx + 1) count);
      next_phase ← lift (Py.getitem phases (JInt next_idx));
      if next_idx =? 0 then
        iteration ← lift (Py.get state "iteration" (JInt 1));
        bumped ← lift (Py.add1 iteration);
        state ← lift (Py.setitem state "iteration" bumped);
        mret (Some (next_phase, state))
      else mret (Some (next_phase, state))) w).1 = Raise e →
  ¬ arithmetic e.
Proof.
  intros Hn Hlen Hitem.
  unfold mbind at 1, M_bind at 1, lift at 1.
  destruct (Py.eq status (JStr "FAILED")) as [[|]|e'|] eqn:Heq;
    [| |by destruct status|done].
  - cbv zeta.
    assert (∀ w2,
      ((next_phase ← lift (Py.getitem phases (JInt 0));
        iteration ← lift (Py.get state "iteration" (JInt 1));
        bumped ← lift (Py.add1 iteration);
        state' ← lift (Py.setitem state "iteration" bumped);
        mret (Some (next_phase, state'))) w2).1 = Raise e →
      ¬ arithmetic e) as Hreset.
    { intros w2. unfold mbind at 1, M_bind at 1, lift at 1.
      destruct (Hitem 0) as [[v ->]| ->]; [lia| |done]. apply bump_raises. }
    unfold mbind at 1, M_bind at 1, print, emit.
    unfold mbind at 1, M_bind at 1, lift at 1. cbn [Py.get].
    unfold mbind at 1, M_bind at 1, lift at 1.
    destruct (Py.truthy _) as [[|]|e'|] eqn:Htruthy; [| |by
      destruct (default JNull (Py.lookup "cleanup_command" c)) | done].
    + unfold mbind at 1, M_bind at 1.
      destruct (run_command _ _) as [[[|]|e'|] w2] eqn:Hrun; cbn [negb].
      * apply Hreset.
      * done.
      * pose proof (run_command_raises _ _ e' (f_equal fst Hrun)) as ->.
        by intros [= <-] [|].
      * done.
    + apply Hreset.
  - unfold mbind at 1, M_bind at 1, lift at 1.
    destruct Hlen as [-> | ->]; [|done].
    unfold mbind at 1, M_bind at 1, lift at 1. unfold Py.mod_.
    rewrite (proj2 (Z.eqb_neq _ 0)) by lia.
    pose proof (Z.mod_pos_bound (idx + 1) n Hn) as Hnext.
    unfold mbind at 1, M_bind at 1, lift at 1.
    destruct (Hitem _ Hnext) as [[v ->]| ->]; [|done].
    destruct (_ =? 0); [apply bump_raises | done].
Qed.

Lemma determine_never_arithmetic (config state status : json) w e :
  (determine_transition config state status w).1 = Raise e → ¬ arithmetic e.
Proof.
  unfold determine_transition.
  unfold mbind at 1, M_bind at 1, lift at 1.
  destruct config as [| | | | | |c]; cbn [Py.get]; try by intros [= <-] [|].
  unfold mbind at 1, M_bind at 1, lift at 1.
  destruct (Py.get state "phase" JNull) as [current_phase|e'|] eqn:Hphase;
    [|destruct state; simplify_eq/=; by intros [= <-] [|] | done].
  unfold mbind at 1, M_bind at 1, lift at 1.
  destruct (default (JList []) (Py.lookup "phases" c))
    as [|[|]|z|?|s|items|entries]; cbn [Py.truthy negb]; try done;
    unfold mbind at 1, M_bind at 1, try_except, lift at 1.
  - by intros [= <-] [|].
  - destruct (negb (z =? 0)); cbn; [by intros [= <-] [|] | done].
  - destruct s as [|a s]; [done|].
    set (phases := JStr (String a s)).
    change (negb (negb (bool_decide (String a s = EmptyString)))) with false.
    cbv iota.
    assert (∃ n, 0 < n
      ∧ (Py.len phases = Ok n ∨ Py.len phases = Stuck)
      ∧ ∀ j, 0 ≤ j < n →
          (∃ v, Py.getitem phases (JInt j) = Ok v)
          ∨ Py.getitem phases (JInt j) = Stuck) as (n & Hn & Hlen & Hitem).
    { subst phases. cbn [Py.len Py.getitem].
      destruct (Py.ascii_only (String a s)).
      - exists (Z.of_nat (String.length (String a s))).
        split; [cbn; lia|]. split; [by left|].
        intros j Hj. left. by apply str_item_in_range.
      - exists 1. split; [lia|]. split; [by right|]. intros j _. by right. }
    destruct (Py.index phases current_phase) as [i|e'|] eqn:Hindex.
    + by apply (arms_never_arithmetic c state status current_phase phases n).
    + apply str_index_raises in Hindex as [-> | ->].
      * change (is_instance ValueError ValueError) with true.
        by apply (arms_never_arithmetic c state status current_phase phases n).
      * change (is_instance TypeError ValueError) with false.
        by intros [= <-] [|].
    + done.
  - destruct items as [|x rest]; [done|].
    set (phases := JList (x :: rest)).
    change (negb (negb (bool_decide (length (x :: rest) = 0%nat)))) with false.
    cbv iota.
    assert (0 < Z.of_nat (length (x :: rest))) as Hn by (cbn; lia).
    assert (∀ j, 0 ≤ j < Z.of_nat (length (x :: rest)) →
              (∃ v, Py.getitem phases (JInt j) = Ok v)
              ∨ Py.getitem phases (JInt j) = Stuck) as Hitem.
    { intros j Hj. left. by apply list_item_in_range. }
    destruct (Py.index phases current_phase) as [i|e'|] eqn:Hindex.
    + apply (arms_never_arithmetic c state status current_phase phases
               _ i _ e Hn); [by left | done].
    + apply index_from_raises in Hindex as ->.
      change (is_instance ValueError ValueError) with true.
      apply (arms_never_arithmetic c state status current_phase phases
               _ (-1) _ e Hn); [by left | done].
    + done.
  - destruct (negb (bool_decide (length entries = 0%nat))); cbn; [|done].
    by intros [= <-] [|].
Qed.

End Transition.

(** ** The properties the specification states *)

Section Claims.

Context `{Runtime}.

Implicit Types (w : world) (names : list string)
  (config state : list (string * json)).

(** C1.  Success transition.  For a configuration whose phases are the
    distinct names [names], and a loaded state with status COMPLETED whose
    phase is the [i]-th of them: one invocation leaves in the state file a
    record whose phase is the name at index [(i + 1) mod n] and whose
    status is ACTIVE.  Its iteration is the old one plus one exactly when
    [i] is the last index; otherwise the iteration entry is the loaded
    one.  (Where it is counted up the iteration is an integer, 1 when
    absent; the per-phase commands are optional command strings, as the
    data model has them.) *)
Theorem completed_advances_cyclically env w config path state names i p it :
  loads w config path state →
  Py.lookup "phases" config = Some (JList (JStr <$> names)) →
  NoDup names →
  names !! i = Some p →
  Py.lookup "status" state = Some (JStr "COMPLETED") →
  Py.lookup "phase" state = Some (JStr p) →
  (S i = length names →
   default (JInt 1) (Py.lookup "iteration" state) = JInt it) →
  scripts_typed config = true →
  ∃ q persisted,
    names !! ((i + 1) mod length names)%nat = Some q
    ∧ files (main env w).2 !! path
      = Some (json_dumps (Some 2%nat) (JDict persisted))
    ∧ Py.lookup "phase" persisted = Some (JStr q)
    ∧ Py.lookup "status" persisted = Some (JStr "ACTIVE")
    ∧ (S i = length names →
       Py.lookup "iteration" persisted = Some (JInt (it + 1)))
    ∧ (S i ≠ length names →
       Py.lookup "iteration" persisted = Py.lookup "iteration" state).
Proof.
  intros Hloads Hphases Hnd Hi Hstatus Hphase Hit Htyped.
  pose proof (lookup_lt_Some _ _ _ Hi) as Hlt.
  assert (default (JList []) (Py.lookup "phases" config) = JList (JStr <$> names))
    as Hphases' by (by rewrite Hphases).
  assert (default JNull (Py.lookup "status" state) = JStr "COMPLETED")
    as Hstatus' by (by rewrite Hstatus).
  destruct (decide (S i = length names)) as [Hlast|Hmore].
  - destruct names as [|first rest] eqn:Hnames; [simpl in Hlt; lia|].
    rewrite <- Hnames in *.
    pose proof (determine_wrap config state names i p first rest _
      (loaded path w) Hphases' Hnd Hi Hlast Hnames Hphase (bump_integer _ _ (Hit Hlast)))
      as Hdet.
    destruct (main_enters env w config path state "COMPLETED" first _ _
      Hloads Hstatus' (or_introl eq_refl) Hdet Htyped) as (w5 & _ & Hfiles & _).
    eexists first, _. split.
    { replace (i + 1)%nat with (length names) by lia.
      rewrite Nat.Div0.mod_same. by rewrite Hnames. }
    split; [by rewrite Hfiles, lookup_insert_eq|].
    split; [apply arrive_phase|]. split; [apply arrive_status|].
    split; [|done]. intros _. rewrite arrive_iteration. apply lookup_store_eq.
  - destruct (lookup_lt_is_Some_2 names (S i)) as [q Hq]; [lia|].
    pose proof (determine_advance config state names i p q
      (loaded path w) Hphases' Hnd Hi Hq Hphase) as Hdet.
    destruct (main_enters env w config path state "COMPLETED" q _ _
      Hloads Hstatus' (or_introl eq_refl) Hdet Htyped) as (w5 & _ & Hfiles & _).
    eexists q, _. split.
    { rewrite Nat.mod_small by lia. by rewrite Nat.add_1_r. }
    split; [by rewrite Hfiles, lookup_insert_eq|].
    split; [apply arrive_phase|]. split; [apply arrive_status|].
    split; [done|]. intros _. apply arrive_iteration.
Qed.

(** C2.  Failure transition.  For a loaded state with status FAILED,
    whatever its phase (a configured name, an unknown one, no phase at
    all): when the cleanup command is absent, or runs and exits with
    status zero, one invocation leaves in the state file a record whose
    phase is the first configured phase, whose status is ACTIVE and whose
    iteration is the old one plus one. *)
Theorem failed_restarts_cycle env w config path state first rest it :
  loads w config path state →
  Py.lookup "phases" config = Some (JList (JStr <$> first :: rest)) →
  Py.lookup "status" state = Some (JStr "FAILED") →
  cleanup_passes config state path w →
  default (JInt 1) (Py.lookup "iteration" state) = JInt it →
  scripts_typed config = true →
  ∃ persisted,
    files (main env w).2 !! path
    = Some (json_dumps (Some 2%nat) (JDict persisted))
    ∧ Py.lookup "phase" persisted = Some (JStr first)
    ∧ Py.lookup "status" persisted = Some (JStr "ACTIVE")
    ∧ Py.lookup "iteration" persisted = Some (JInt (it + 1)).
Proof.
  intros Hloads Hphases Hstatus Hpass Hit Htyped.
  assert (default (JList []) (Py.lookup "phases" config)
          = JList (JStr <$> first :: rest)) as Hphases' by (by rewrite Hphases).
  assert (default JNull (Py.lookup "status" state) = JStr "FAILED")
    as Hstatus' by (by rewrite Hstatus).
  destruct (determine_reset_passing config state _ first rest _ path w
    Hphases' eq_refl Hpass (bump_integer _ _ Hit)) as (w4 & Hdet).
  destruct (main_enters env w config path state "FAILED" first _ _
    Hloads Hstatus' (or_intror eq_refl) Hdet Htyped) as (w5 & _ & Hfiles & _).
  eexists. split; [by rewrite Hfiles, lookup_insert_eq|].
  split; [apply arrive_phase|]. split; [apply arrive_status|].
  rewrite arrive_iteration. apply lookup_store_eq.
Qed.

(** C3.  Cleanup failure aborts.  For a loaded state with status FAILED,
    when the cleanup command is present and exits with a non-zero status:
    the invocation returns; all it did was read the two documents, print
    four lines and run the command; it wrote no file and nothing on
    standard output except those lines.  The files are exactly as the
    command left them, so a state file the command did not touch holds
    what it held before the invocation. *)
Theorem failed_cleanup_aborts env w config path state first rest c :
  loads w config path state →
  Py.lookup "phases" config = Some (JList (JStr <$> first :: rest)) →
  Py.lookup "status" state = Some (JStr "FAILED") →
  Py.lookup "cleanup_command" config = Some (JStr c) →
  c ≠ EmptyString →
  let current_phase := default JNull (Py.lookup "phase" state) in
  let w1 := log (recovering current_phase) (loaded path w) in
  exit_ok c w1 = false →
  (main env w).1 = Ok tt
  ∧ events (main env w).2
    = events w ++ [EvRead CONFIG_PATH; EvExists path; EvRead path;
                   recovering current_phase;
                   EvPrint ("[Ralph Engine] Running: " +:+ c);
                   EvRun c; command_failed c; CLEANUP_FAILED]
  ∧ files (main env w).2 = (shell c (announce c w1)).1
  ∧ ((shell c (announce c w1)).1 !! path = files w !! path →
     files (main env w).2 !! path = files w !! path).
Proof.
  intros Hloads Hphases Hstatus Hcleanup Hc current_phase w1 Hexit.
  assert (default (JList []) (Py.lookup "phases" config)
          = JList (JStr <$> first :: rest)) as Hphases' by (by rewrite Hphases).
  pose proof (determine_reset_cleanup config state _ first rest c
    (loaded path w) Hphases' eq_refl Hcleanup Hc) as Hdet.
  cbv zeta in Hdet. fold current_phase w1 in Hdet. rewrite Hexit in Hdet.
  assert (main env w
          = (Ok tt, log CLEANUP_FAILED (log (command_failed c) (after_run c w1))))
    as ->.
  { load_main Hloads. rewrite Hstatus. cbn [from_option id].
    do 2 (erewrite bind_ok by reflexivity). cbn [negb].
    erewrite bind_ok by exact Hdet. reflexivity. }
  cbn [fst snd log files events after_run announce].
  split; [done|]. split; [|done].
  subst w1. unfold loaded, log. cbn [events]. by rewrite <- !app_assoc.
Qed.

(** C4.  The claim does not hold of the code.  A configuration file
    that is there but holds no JSON document is not a silent no-op: step
    1 catches [FileNotFoundError] only, so the error of [json.load]
    leaves [main] right after the file is read ([json.JSONDecodeError]
    when the content is text that is not JSON).  The same text in the
    state file is caught by step 3 and the invocation returns. *)
Theorem malformed_configuration_escapes env w text :
  files w !! CONFIG_PATH = Some text →
  json_loads text = None →
  main env w
  = (Raise (raised_by (json_failure text)), log (EvRead CONFIG_PATH) w)
  ∧ (main env w).1 ≠ Ok tt
  ∧ ∀ w0 text0 config path,
      files w0 !! CONFIG_PATH = Some text0 →
      json_loads text0 = Some (JDict config) →
      default (JStr DEFAULT_STATE_FILE) (Py.lookup "state_file" config)
      = JStr path →
      files w0 !! path = Some text →
      json_failure text = NotJSON →
      main env w0 = (Ok tt, loaded path w0).
Proof.
  intros Hfile Hdoc.
  rewrite (main_malformed_configuration env w text Hfile Hdoc).
  split; [done|]. split; [done|].
  intros w0 text0 config path Hfile0 Hdoc0 Hpath Hstate Htext. unfold main.
  erewrite bind_ok by (by eapply load_configuration_ok).
  cbv beta iota zeta. do 2 (erewrite bind_ok by reflexivity).
  cbn [Py.get]. rewrite Hpath.
  pose proof (load_state_malformed (log (EvRead CONFIG_PATH) w0) _ _
                Hstate Hdoc) as Hignored.
  rewrite Htext in Hignored. by erewrite bind_ok by exact Hignored.
Qed.

(** C5.  For a loaded state whose status is neither COMPLETED nor FAILED
    (ACTIVE, any other value, or no status) an invocation is a no-op: it
    returns, the files are unchanged, and all it did was read the two
    documents: nothing printed, run or written.  A second invocation
    behaves in the same way. *)
Theorem other_status_is_noop env w config path state :
  loads w config path state →
  default JNull (Py.lookup "status" state) ≠ JStr "COMPLETED" →
  default JNull (Py.lookup "status" state) ≠ JStr "FAILED" →
  let reads := [EvRead CONFIG_PATH; EvExists path; EvRead path] in
  let w' := (main env w).2 in
  (main env w).1 = Ok tt
  ∧ files w' = files w
  ∧ events w' = events w ++ reads
  ∧ (main env w').1 = Ok tt
  ∧ files (main env w').2 = files w
  ∧ events (main env w').2 = events w' ++ reads.
Proof.
  intros Hloads Hc Hf reads w'.
  assert (∀ w0, loads w0 config path state →
            main env w0 = (Ok tt, loaded path w0)) as Hnoop.
  { intros w0 Hloads0. load_main Hloads0.
    erewrite bind_ok by reflexivity.
    erewrite bind_ok by (unfold lift; by rewrite (ignores_other _ Hc Hf)).
    reflexivity. }
  assert (loads (loaded path w) config path state) as Hagain by exact Hloads.
  subst w'. rewrite (Hnoop w Hloads). cbn [fst snd].
  rewrite (Hnoop _ Hagain). cbn [fst snd].
  rewrite !loaded_files, !loaded_events. by repeat split.
Qed.

(** C6.  Unknown phase.  For a loaded state with status COMPLETED whose
    phase is none of the configured names, the fallback index -1 makes the
    next phase the first configured one: that is the phase persisted, with
    status ACTIVE (and, the computed index being 0, the iteration counted
    up by one). *)
Theorem unknown_phase_restarts_cycle env w config path state first rest it :
  loads w config path state →
  Py.lookup "phases" config = Some (JList (JStr <$> first :: rest)) →
  Py.lookup "status" state = Some (JStr "COMPLETED") →
  (∀ s, s ∈ first :: rest → default JNull (Py.lookup "phase" state) ≠ JStr s) →
  default (JInt 1) (Py.lookup "iteration" state) = JInt it →
  scripts_typed config = true →
  ∃ persisted,
    files (main env w).2 !! path
    = Some (json_dumps (Some 2%nat) (JDict persisted))
    ∧ Py.lookup "phase" persisted = Some (JStr first)
    ∧ Py.lookup "status" persisted = Some (JStr "ACTIVE")
    ∧ Py.lookup "iteration" persisted = Some (JInt (it + 1)).
Proof.
  intros Hloads Hphases Hstatus Hunknown Hit Htyped.
  assert (default (JList []) (Py.lookup "phases" config)
          = JList (JStr <$> first :: rest)) as Hphases' by (by rewrite Hphases).
  assert (default JNull (Py.lookup "status" state) = JStr "COMPLETED")
    as Hstatus' by (by rewrite Hstatus).
  pose proof (determine_unknown config state _ first rest _ (loaded path w)
    Hphases' eq_refl Hunknown (bump_integer _ _ Hit)) as Hdet.
  destruct (main_enters env w config path state "COMPLETED" first _ _
    Hloads Hstatus' (or_introl eq_refl) Hdet Htyped) as (w5 & _ & Hfiles & _).
  eexists. split; [by rewrite Hfiles, lookup_insert_eq|].
  split; [apply arrive_phase|]. split; [apply arrive_status|].
  rewrite arrive_iteration. apply lookup_store_eq.
Qed.

(** C7.  Frame.  Whatever the configuration and the loaded state record
    hold, everything an invocation writes to a file is the state file,
    and the record written there is the loaded one with only [phase],
    [status] and [iteration] touched: the entries under every other key
    ([history], [metrics], unknown keys) are the loaded ones, with their
    values and in their order. *)
Theorem engine_touches_only_its_keys env w config path state :
  loads w config path state →
  ∃ new,
    events (main env w).2 = events w ++ new
    ∧ ∀ p written, EvWrite p written ∈ new →
        ∃ persisted,
          p = path
          ∧ written = json_dumps (Some 2%nat) (JDict persisted)
          ∧ framed state persisted
          ∧ ∀ k, k ≠ "phase" → k ≠ "status" → k ≠ "iteration" →
              Py.lookup k persisted = Py.lookup k state.
Proof.
  intros Hloads. load_main Hloads.
  match goal with |- context [events (?m ?w3).2] =>
    assert (adds (writes_framed path state) (λ _, True) m) as Hrest end.
  { apply adds_bind with (R := λ _, True); [by apply adds_lift|]. intros status _.
    apply adds_bind with (R := λ _, True); [by apply adds_lift|]. intros acts _.
    destruct (negb acts); [by apply adds_ret|].
    apply adds_bind with (R := hands_on state); [by apply determine_adds|].
    intros [[next_phase [| | | | | |persisted]]|] Harm; try done; [|by apply adds_ret].
    apply adds_bind with (R := λ _, True); [by apply pre_phase_adds|]. intros _ _.
    apply adds_bind with (R := λ _, True).
    { apply (update_state_adds _ _ state); [done|].
      intros persisted' Hfr. by eexists. }
    intros state1 _.
    apply adds_bind with (R := λ _, True); [by apply load_next_prompt_adds|].
    intros content _.
    apply adds_bind with (R := λ _, True); [by apply construct_response_adds|].
    intros response _. by apply adds_emit. }
  destruct (Hrest (loaded path w)) as (new & -> & Hnew & _).
  exists ([EvRead CONFIG_PATH; EvExists path; EvRead path] ++ new).
  split; [rewrite loaded_events; by rewrite <- app_assoc|].
  intros p written [Hin|Hin]%elem_of_app.
  { by repeat (apply elem_of_cons in Hin as [|Hin]; [done|]);
      apply elem_of_nil in Hin. }
  rewrite Forall_forall in Hnew. destruct (Hnew _ Hin) as (persisted & -> & -> & Hfr).
  exists persisted. repeat split; [done|]. intros k Hp Hs Hi.
  apply framed_lookup; [done|]. unfold engine_key.
  by rewrite !bool_decide_eq_false_2.
Qed.


(** C10.  Empty phase list.  When the configured phase list is empty
    (or absent, or otherwise false) and the status is COMPLETED or FAILED,
    the invocation prints the error and returns: the files are unchanged,
    nothing is computed, written or emitted.  With that guard in place,
    step 5 never raises [ZeroDivisionError] or [IndexError], on any
    configuration, state and status. *)
Theorem no_phases_is_guarded env w config path state status :
  loads w config path state →
  Py.truthy (default (JList []) (Py.lookup "phases" config)) = Ok false →
  Py.lookup "status" state = Some (JStr status) →
  status = "COMPLETED" ∨ status = "FAILED" →
  (main env w).1 = Ok tt
  ∧ files (main env w).2 = files w
  ∧ events (main env w).2
    = events w ++ [EvRead CONFIG_PATH; EvExists path; EvRead path;
                   EvPrint NO_PHASES]
  ∧ ∀ (config' state' status' : json) w0 e,
      (determine_transition config' state' status' w0).1 = Raise e →
      ¬ arithmetic e.
Proof.
  intros Hloads Hempty Hstatus Hacts.
  assert (main env w = (Ok tt, log (EvPrint NO_PHASES) (loaded path w))) as ->.
  { load_main Hloads. rewrite Hstatus. cbn [from_option id].
    erewrite bind_ok by reflexivity.
    erewrite bind_ok by (by destruct Hacts as [-> | ->]).
    cbn [negb].
    erewrite bind_ok by (by apply determine_undefined). reflexivity. }
  cbn [fst snd log files events]. rewrite loaded_events, <- app_assoc.
  split; [done|]. split; [done|]. split; [done|].
  intros config' state' status' w0 e. apply determine_never_arithmetic.
Qed.

End Claims.

(** ** The environment is read and never used *)

(** C9.  The engine is claimed to resolve the configuration and state
    paths under the project root given by [GEMINI_PROJECT_DIR].  It does
    not: an invocation does the same whatever the environment holds.
    With the variable set to [/srv/app], where a complete project lives,
    and no project in the working directory, the engine opens
    [.gemini/ralph/config.json], finds nothing and returns; with the
    project in the working directory it reads the same two relative
    paths under either value of the variable. *)
Theorem project_dir_is_ignored :
  (∀ (runtime : Runtime) env1 env2 w, @main runtime env1 w = @main runtime env2 w)
  ∧ @main Demo.rt Demo.environ_app Demo.elsewhere
    = (Ok tt, log (EvRead ".gemini/ralph/config.json") Demo.elsewhere)
  ∧ take 3 (events (@main Demo.rt Demo.environ_app
                      (Demo.disk Demo.plan_build_test Demo.plan_active)).2)
    = [EvRead ".gemini/ralph/config.json";
       EvExists ".gemini/ralph/state.json";
       EvRead ".gemini/ralph/state.json"]
  ∧ take 3 (events (@main Demo.rt Demo.environ_other
                      (Demo.disk Demo.plan_build_test Demo.plan_active)).2)
    = [EvRead ".gemini/ralph/config.json";
       EvExists ".gemini/ralph/state.json";
       EvRead ".gemini/ralph/state.json"].
Proof.
  split; [reflexivity|]. split; [by vm_compute|]. split; by vm_compute.
Qed.

(** ** The statements at work on the example projects *)

Section Witnesses.

Local Existing Instance Demo.rt.

(** Both documents of an example project load. *)
Ltac project_loads config state :=
  split; [exists (Demo.render (JDict config)); split; vm_compute; reflexivity|];
  split; [vm_compute; reflexivity|];
  exists (Demo.render (JDict state)); split; vm_compute; reflexivity.

(** The scenario of the specification: TEST completed at iteration 3
    leads to PLAN at iteration 4. *)
Lemma completed_advances_cyclically_witness :
  loads (Demo.disk Demo.plan_build_test Demo.test_completed)
    Demo.plan_build_test DEFAULT_STATE_FILE Demo.test_completed
  ∧ ∃ q persisted,
      ["PLAN"; "BUILD"; "TEST"] !! ((2 + 1) mod 3)%nat = Some q
      ∧ files (main ∅ (Demo.disk Demo.plan_build_test Demo.test_completed)).2
          !! DEFAULT_STATE_FILE
        = Some (json_dumps (Some 2%nat) (JDict persisted))
      ∧ Py.lookup "phase" persisted = Some (JStr q)
      ∧ Py.lookup "status" persisted = Some (JStr "ACTIVE")
      ∧ (3%nat = 3%nat → Py.lookup "iteration" persisted = Some (JInt (3 + 1)))
      ∧ (3%nat ≠ 3%nat →
         Py.lookup "iteration" persisted
         = Py.lookup "iteration" Demo.test_completed).
Proof.
  split; [project_loads Demo.plan_build_test Demo.test_completed|].
  apply (completed_advances_cyclically ∅
           (Demo.disk Demo.plan_build_test Demo.test_completed)
           Demo.plan_build_test DEFAULT_STATE_FILE Demo.test_completed
           ["PLAN"; "BUILD"; "TEST"] 2 "TEST" 3).
  - project_loads Demo.plan_build_test Demo.test_completed.
  - reflexivity.
  - apply (bool_decide_unpack _). vm_compute. exact I.
  - reflexivity.
  - reflexivity.
  - reflexivity.
  - intros _. reflexivity.
  - reflexivity.
Defined.


(** BUILD failed at iteration 2, the cleanup passes: back to PLAN at
    iteration 3. *)
Lemma failed_restarts_cycle_witness :
  loads (Demo.disk Demo.plan_build_test Demo.build_failed)
    Demo.plan_build_test DEFAULT_STATE_FILE Demo.build_failed
  ∧ cleanup_passes Demo.plan_build_test Demo.build_failed DEFAULT_STATE_FILE
      (Demo.disk Demo.plan_build_test Demo.build_failed)
  ∧ ∃ persisted,
      files (main ∅ (Demo.disk Demo.plan_build_test Demo.build_failed)).2
        !! DEFAULT_STATE_FILE
      = Some (json_dumps (Some 2%nat) (JDict persisted))
      ∧ Py.lookup "phase" persisted = Some (JStr "PLAN")
      ∧ Py.lookup "status" persisted = Some (JStr "ACTIVE")
      ∧ Py.lookup "iteration" persisted = Some (JInt (2 + 1)).
Proof.
  split; [project_loads Demo.plan_build_test Demo.build_failed|].
  split; [vm_compute; by right|].
  apply (failed_restarts_cycle ∅
           (Demo.disk Demo.plan_build_test Demo.build_failed)
           Demo.plan_build_test DEFAULT_STATE_FILE Demo.build_failed
           "PLAN" ["BUILD"; "TEST"] 2).
  - project_loads Demo.plan_build_test Demo.build_failed.
  - reflexivity.
  - reflexivity.
  - vm_compute. by right.
  - reflexivity.
  - reflexivity.
Defined.

(** The scenario of the specification: BUILD failed, the cleanup command
    exits non-zero: the state file is as it was and nothing is emitted. *)
Lemma failed_cleanup_aborts_witness :
  loads (Demo.disk Demo.plan_build_strict Demo.build_failed)
    Demo.plan_build_strict DEFAULT_STATE_FILE Demo.build_failed
  ∧ (main ∅ (Demo.disk Demo.plan_build_strict Demo.build_failed)).1 = Ok tt
  ∧ events (main ∅ (Demo.disk Demo.plan_build_strict Demo.build_failed)).2
    = [EvRead ".gemini/ralph/config.json";
       EvExists ".gemini/ralph/state.json";
       EvRead ".gemini/ralph/state.json";
       EvPrint "[Ralph Engine] Phase BUILD FAILED. Initiating recovery...";
       EvPrint "[Ralph Engine] Running: exit 1";
       EvRun "exit 1";
       EvPrint "[Ralph Engine] Command failed: exit 1";
       EvPrint "[Ralph Engine] Cleanup failed. Aborting loop."]
  ∧ files (main ∅ (Demo.disk Demo.plan_build_strict Demo.build_failed)).2
      !! DEFAULT_STATE_FILE
    = files (Demo.disk Demo.plan_build_strict Demo.build_failed)
        !! DEFAULT_STATE_FILE.
Proof.
  split; [project_loads Demo.plan_build_strict Demo.build_failed|].
  destruct (failed_cleanup_aborts ∅
              (Demo.disk Demo.plan_build_strict Demo.build_failed)
              Demo.plan_build_strict DEFAULT_STATE_FILE Demo.build_failed
              "PLAN" ["BUILD"] "exit 1")
    as (Hreturns & Hevents & _ & Hsame).
  - project_loads Demo.plan_build_strict Demo.build_failed.
  - reflexivity.
  - reflexivity.
  - reflexivity.
  - discriminate.
  - vm_compute. reflexivity.
  - split; [exact Hreturns|]. split; [exact Hevents|].
    apply Hsame. vm_compute. reflexivity.
Defined.

(** A configuration file that is not JSON, and the same text as the
    state file of a project. *)
Lemma malformed_configuration_escapes_witness :
  files Demo.broken !! CONFIG_PATH = Some "{ phases: PLAN"
  ∧ json_loads "{ phases: PLAN" = None
  ∧ main ∅ Demo.broken
    = (Raise JSONDecodeError, log (EvRead CONFIG_PATH) Demo.broken)
  ∧ (main ∅ Demo.broken).1 ≠ Ok tt.
Proof.
  split; [vm_compute; reflexivity|]. split; [vm_compute; reflexivity|].
  destruct (malformed_configuration_escapes ∅ Demo.broken "{ phases: PLAN")
    as (Hraises & Hescapes & _).
  - vm_compute. reflexivity.
  - vm_compute. reflexivity.
  - split; [exact Hraises | exact Hescapes].
Defined.

(** An ACTIVE state: two invocations, six reads, nothing else. *)
Lemma other_status_is_noop_witness :
  loads (Demo.disk Demo.plan_build_test Demo.plan_active)
    Demo.plan_build_test DEFAULT_STATE_FILE Demo.plan_active
  ∧ (main ∅ (Demo.disk Demo.plan_build_test Demo.plan_active)).1 = Ok tt
  ∧ files (main ∅ (Demo.disk Demo.plan_build_test Demo.plan_active)).2
    = files (Demo.disk Demo.plan_build_test Demo.plan_active)
  ∧ events (main ∅ (Demo.disk Demo.plan_build_test Demo.plan_active)).2
    = [EvRead ".gemini/ralph/config.json";
       EvExists ".gemini/ralph/state.json";
       EvRead ".gemini/ralph/state.json"].
Proof.
  split; [project_loads Demo.plan_build_test Demo.plan_active|].
  destruct (other_status_is_noop ∅
              (Demo.disk Demo.plan_build_test Demo.plan_active)
              Demo.plan_build_test DEFAULT_STATE_FILE Demo.plan_active)
    as (Hreturns & Hfiles & Hevents & _).
  - project_loads Demo.plan_build_test Demo.plan_active.
  - discriminate.
  - discriminate.
  - split; [exact Hreturns|]. split; [exact Hfiles | exact Hevents].
Defined.

(** The scenario of the specification: phase UNKNOWN completed, phases A
    and B: the next phase is A. *)
Lemma unknown_phase_restarts_cycle_witness :
  loads (Demo.disk Demo.a_b Demo.unknown_completed)
    Demo.a_b DEFAULT_STATE_FILE Demo.unknown_completed
  ∧ ∃ persisted,
      files (main ∅ (Demo.disk Demo.a_b Demo.unknown_completed)).2
        !! DEFAULT_STATE_FILE
      = Some (json_dumps (Some 2%nat) (JDict persisted))
      ∧ Py.lookup "phase" persisted = Some (JStr "A")
      ∧ Py.lookup "status" persisted = Some (JStr "ACTIVE")
      ∧ Py.lookup "iteration" persisted = Some (JInt (1 + 1)).
Proof.
  split; [project_loads Demo.a_b Demo.unknown_completed|].
  apply (unknown_phase_restarts_cycle ∅
           (Demo.disk Demo.a_b Demo.unknown_completed)
           Demo.a_b DEFAULT_STATE_FILE Demo.unknown_completed "A" ["B"] 1).
  - project_loads Demo.a_b Demo.unknown_completed.
  - reflexivity.
  - reflexivity.
  - intros s Hs [= <-].
    pose proof (bool_decide_pack _ Hs) as Hd. vm_compute in Hd. exact Hd.
  - reflexivity.
  - reflexivity.
Defined.

(** What the engine writes for the first project keeps [history],
    [metrics] and [current_plan]. *)
Lemma engine_touches_only_its_keys_witness :
  loads (Demo.disk Demo.plan_build_test Demo.test_completed)
    Demo.plan_build_test DEFAULT_STATE_FILE Demo.test_completed
  ∧ ∃ new,
      events (main ∅ (Demo.disk Demo.plan_build_test Demo.test_completed)).2
      = events (Demo.disk Demo.plan_build_test Demo.test_completed) ++ new
      ∧ ∀ p written, EvWrite p written ∈ new →
          ∃ persisted,
            p = DEFAULT_STATE_FILE
            ∧ written = json_dumps (Some 2%nat) (JDict persisted)
            ∧ framed Demo.test_completed persisted
            ∧ ∀ k, k ≠ "phase" → k ≠ "status" → k ≠ "iteration" →
                Py.lookup k persisted = Py.lookup k Demo.test_completed.
Proof.
  split; [project_loads Demo.plan_build_test Demo.test_completed|].
  apply (engine_touches_only_its_keys ∅
           (Demo.disk Demo.plan_build_test Demo.test_completed)
           Demo.plan_build_test DEFAULT_STATE_FILE Demo.test_completed).
  project_loads Demo.plan_build_test Demo.test_completed.
Defined.



(** A project without phases: the error line and nothing else. *)
Lemma no_phases_is_guarded_witness :
  loads (Demo.disk Demo.unconfigured Demo.test_completed)
    Demo.unconfigured DEFAULT_STATE_FILE Demo.test_completed
  ∧ (main ∅ (Demo.disk Demo.unconfigured Demo.test_completed)).1 = Ok tt
  ∧ files (main ∅ (Demo.disk Demo.unconfigured Demo.test_completed)).2
    = files (Demo.disk Demo.unconfigured Demo.test_completed)
  ∧ events (main ∅ (Demo.disk Demo.unconfigured Demo.test_completed)).2
    = [EvRead ".gemini/ralph/config.json";
       EvExists ".gemini/ralph/state.json";
       EvRead ".gemini/ralph/state.json";
       EvPrint "[Ralph Engine] Error: No phases defined in .gemini/ralph/config.json"].
Proof.
  split; [project_loads Demo.unconfigured Demo.test_completed|].
  destruct (no_phases_is_guarded ∅
              (Demo.disk Demo.unconfigured Demo.test_completed)
              Demo.unconfigured DEFAULT_STATE_FILE Demo.test_completed
              "COMPLETED")
    as (Hreturns & Hfiles & Hevents & _).
  - project_loads Demo.unconfigured Demo.test_completed.
  - reflexivity.
  - reflexivity.
  - by left.
  - split; [exact Hreturns|]. split; [exact Hfiles | exact Hevents].
Defined.

End Witnesses.

(** * Further properties of the code

    What the engine and the bootstrapper do beyond the statements above:
    their error paths, what every write holds, the order of a
    transition, and the two programs one after the other. *)

(** ** Every write is an advance of the loaded record *)

Section WriteInvariant.

Context `{Runtime}.

Implicit Types (w : world) (names : list string)
  (config state : list (string * json)).

Lemma bump_decides P config state (next_phase : json) :
  item_of (default (JList []) (Py.lookup "phases" config)) next_phase →
  adds P (decides config state)
    (iteration ← lift (Py.get (JDict state) "iteration" (JInt 1));
     bumped ← lift (Py.add1 iteration);
     state' ← lift (Py.setitem (JDict state) "iteration" bumped);
     mret (Some (next_phase, state'))).
Proof.
  intros Hmember.
  apply adds_bind with
    (R := λ it, it = default (JInt 1) (Py.lookup "iteration" state)).
  { apply adds_lift. by intros it [= <-]. }
  intros it ->.
  apply adds_bind with
    (R := λ b, Py.add1 (default (JInt 1) (Py.lookup "iteration" state)) = Ok b).
  { by apply adds_lift. }
  intros b Hb.
  apply adds_bind with
    (R := λ s, s = JDict (Py.store "iteration" b state)).
  { apply adds_lift. by intros s [= <-]. }
  intros s ->. apply adds_ret. split; [done|]. right.
  eexists. split; [|done]. unfold bump. by rewrite Hb.
Qed.

Lemma determine_decides P config state (status : json) :
  (∀ s, P (EvPrint s)) → (∀ c, P (EvRun c)) →
  adds P (decides config state)
    (determine_transition (JDict config) (JDict state) status).
Proof.
  intros Hprint Hrun. unfold determine_transition.
  apply adds_bind with
    (R := λ phases, phases = default (JList []) (Py.lookup "phases" config)).
  { apply adds_lift. by intros phases [= <-]. }
  intros phases Hphases.
  apply adds_bind with (R := λ _, True); [by apply adds_lift|]. intros current_phase _.
  apply adds_bind with (R := λ _, True); [by apply adds_lift|]. intros defined _.
  destruct (negb defined).
  { apply adds_bind with (R := λ _, True); [by apply adds_emit|].
    intros _ _. by apply adds_ret. }
  apply adds_bind with (R := λ _, True).
  { apply adds_try; [by apply adds_lift | by apply adds_ret]. }
  intros current_idx _.
  apply adds_bind with (R := λ _, True); [by apply adds_lift|]. intros failed _.
  assert (∀ k, adds P (decides config state)
    (next_phase ← lift (Py.getitem phases (JInt k));
     iteration ← lift (Py.get (JDict state) "iteration" (JInt 1));
     bumped ← lift (Py.add1 iteration);
     state' ← lift (Py.setitem (JDict state) "iteration" bumped);
     mret (Some (next_phase, state')))) as Hreset.
  { intros k.
    apply adds_bind with (R := item_of phases).
    { apply adds_lift. intros v Hv. by apply getitem_item_of in Hv. }
    intros next_phase Hin. apply bump_decides. by rewrite <- Hphases. }
  destruct failed.
  - apply adds_bind with (R := λ _, True); [by apply adds_emit|]. intros _ _.
    apply adds_bind with (R := λ _, True); [by apply adds_lift|]. intros cleanup_cmd _.
    apply adds_bind with (R := λ _, True); [by apply adds_lift|]. intros has_cleanup _.
    cbv zeta. destruct has_cleanup; [|apply Hreset].
    apply adds_bind with (R := λ _, True); [by apply adds_run_command|].
    intros cleaned _. destruct (negb cleaned); [|apply Hreset].
    apply adds_bind with (R := λ _, True); [by apply adds_emit|].
    intros _ _. by apply adds_ret.
  - apply adds_bind with (R := λ _, True); [by apply adds_lift|]. intros count _.
    apply adds_bind with (R := λ _, True); [by apply adds_lift|]. intros next_idx _.
    apply adds_bind with (R := item_of phases).
    { apply adds_lift. intros v Hv. by apply getitem_item_of in Hv. }
    intros next_phase Hin.
    assert (item_of (default (JList []) (Py.lookup "phases" config)) next_phase)
      as Hmember by (by rewrite <- Hphases).
    destruct (next_idx =? 0); [by apply bump_decides|].
    apply adds_ret. split; [done | by left].
Qed.

(** Every write of an invocation is an advance of the loaded record,
    into the state file. *)
Lemma main_writes_advance env w config path state :
  loads w config path state →
  ∃ new,
    events (main env w).2 = events w ++ new
    ∧ Forall (writes_advance path config state) new.
Proof.
  intros Hloads. load_main Hloads.
  match goal with |- context [events (?m ?w3).2] =>
    assert (adds (writes_advance path config state) (λ _, True) m) as Hrest end.
  { apply adds_bind with (R := λ _, True); [by apply adds_lift|]. intros status _.
    apply adds_bind with (R := λ _, True); [by apply adds_lift|]. intros acts _.
    destruct (negb acts); [by apply adds_ret|].
    apply adds_bind with (R := decides config state);
      [by apply determine_decides|].
    intros [[next_phase state1]|] Harm; [|by apply adds_ret].
    apply adds_bind with (R := λ _, True); [by apply pre_phase_adds|]. intros _ _.
    apply adds_bind with (R := λ _, True).
    { assert (∃ st1, state1 = JDict st1) as (st1 & ->).
      { destruct Harm as (_ & [->|(b & _ & ->)]); by eexists. }
      intros w0. unfold update_state, mbind, M_bind, lift. cbn.
      eexists [_]. split; [done|]. split; [|done].
      apply Forall_singleton. split; [done|]. eexists. split; [done|].
      by exists next_phase, st1. }
    intros state2 _.
    apply adds_bind with (R := λ _, True); [by apply load_next_prompt_adds|].
    intros content _.
    apply adds_bind with (R := λ _, True); [by apply construct_response_adds|].
    intros response _. by apply adds_emit. }
  destruct (Hrest (loaded path w)) as (new & -> & Hnew & _).
  exists ([EvRead CONFIG_PATH; EvExists path; EvRead path] ++ new).
  split; [rewrite loaded_events; by rewrite <- app_assoc|].
  apply Forall_app. split; [by repeat constructor | done].
Qed.

End WriteInvariant.

(** ** Invocations of the engine *)

Section Invocations.

Context `{Runtime}.

Implicit Types (w : world) (names : list string)
  (config state : list (string * json)).

(** X1.  [run_command] keeps its docstring: no command (null or the
    empty string) is a success that does nothing; a command is announced
    and run, and the answer is whether it exited with status zero, a
    failure being printed and never raised. *)
Theorem run_command_contract c w :
  run_command JNull w = (Ok true, w)
  ∧ run_command (JStr EmptyString) w = (Ok true, w)
  ∧ (c ≠ EmptyString →
     run_command (JStr c) w
     = (Ok (exit_ok c w),
        if exit_ok c w then after_run c w
        else log (command_failed c) (after_run c w))).
Proof.
  split; [done|]. split; [done|]. intros Hc.
  rewrite (run_command_str c w Hc). by destruct (exit_ok c w).
Qed.

Lemma main_state_absent env w text config path :
  files w !! CONFIG_PATH = Some text →
  json_loads text = Some (JDict config) →
  default (JStr DEFAULT_STATE_FILE) (Py.lookup "state_file" config) = JStr path →
  files w !! path = None →
  main env w = (Ok tt, log (EvExists path) (log (EvRead CONFIG_PATH) w)).
Proof.
  intros Hfile Hdoc Hpath Hnone. unfold main.
  erewrite bind_ok by (by eapply load_configuration_ok).
  cbv beta iota zeta. do 2 (erewrite bind_ok by reflexivity).
  cbn [Py.get]. rewrite Hpath.
  by erewrite bind_ok by (by apply load_state_absent).
Qed.


(** X3.  A state file that holds no JSON document.  When its content
    is text that is not JSON, the invocation returns after reading it;
    the file is left as it is, neither repaired nor reported.  When
    [json.load] fails for another reason (content that is not text, a
    document nested too deep) the error leaves [main] at the same point:
    step 3 catches [json.JSONDecodeError] only. *)
Theorem corrupt_state_outcome env w text config path text' :
  files w !! CONFIG_PATH = Some text →
  json_loads text = Some (JDict config) →
  default (JStr DEFAULT_STATE_FILE) (Py.lookup "state_file" config) = JStr path →
  files w !! path = Some text' →
  json_loads text' = None →
  (main env w).1
  = match json_failure text' with
    | NotJSON => Ok tt
    | NotText => Raise UnicodeDecodeError
    | TooDeep => Raise RecursionError
    end
  ∧ files (main env w).2 = files w
  ∧ events (main env w).2
    = events w ++ [EvRead CONFIG_PATH; EvExists path; EvRead path].
Proof.
  intros Hfile Hdoc Hpath Hfile' Hbad.
  assert (main env w
          = (match json_failure text' with
             | NotJSON => Ok tt
             | NotText => Raise UnicodeDecodeError
             | TooDeep => Raise RecursionError
             end, loaded path w)) as ->.
  { unfold main.
    erewrite bind_ok by (by eapply load_configuration_ok).
    cbv beta iota zeta. do 2 (erewrite bind_ok by reflexivity).
    cbn [Py.get]. rewrite Hpath.
    unfold mbind at 1, M_bind at 1.
    rewrite (load_state_malformed (log (EvRead CONFIG_PATH) w) _ _ Hfile' Hbad).
    by destruct (json_failure text'). }
  cbn [fst snd]. by rewrite loaded_files, loaded_events.
Qed.

(** X4.  A configuration file that holds no JSON document is not
    handled: the error of [json.load] leaves [main] right after the read
    ([json.JSONDecodeError] when the content is text that is not JSON,
    [UnicodeDecodeError] when it is not text, [RecursionError] when the
    document is nested too deep), and nothing else is done. *)
Theorem corrupt_configuration_raises env w text :
  files w !! CONFIG_PATH = Some text →
  json_loads text = None →
  (main env w).1
  = Raise match json_failure text with
          | NotJSON => JSONDecodeError
          | NotText => UnicodeDecodeError
          | TooDeep => RecursionError
          end
  ∧ files (main env w).2 = files w
  ∧ events (main env w).2 = events w ++ [EvRead CONFIG_PATH].
Proof.
  intros Hfile Hdoc. unfold main, mbind, M_bind.
  by rewrite (load_configuration_malformed _ _ Hfile Hdoc).
Qed.

(** X5.  A document that decodes to something else than an object (a
    list, a string, a number, null) is not handled either: [.get] raises
    [AttributeError], for the configuration right after it is read, for
    the state right after it is read; nothing is written. *)
Theorem non_object_documents_raise env w text (doc : json) :
  files w !! CONFIG_PATH = Some text →
  (∀ entries, doc ≠ JDict entries) →
  (json_loads text = Some doc →
   main env w = (Raise AttributeError, log (EvRead CONFIG_PATH) w))
  ∧ (∀ config path text',
       json_loads text = Some (JDict config) →
       default (JStr DEFAULT_STATE_FILE) (Py.lookup "state_file" config)
       = JStr path →
       files w !! path = Some text' →
       json_loads text' = Some doc →
       main env w = (Raise AttributeError, loaded path w)).
Proof.
  intros Hfile Hdoc.
  assert (∀ k d, Py.get doc k d = Raise AttributeError) as Hget.
  { intros k d. destruct doc; try done. by destruct (Hdoc entries). }
  split.
  - intros Hload. unfold main.
    erewrite bind_ok by (by eapply load_configuration_ok).
    cbv beta iota zeta. unfold mbind, M_bind, lift. by rewrite Hget.
  - intros config path text' Hload Hpath Hfile' Hload'. unfold main.
    erewrite bind_ok by (by eapply load_configuration_ok).
    cbv beta iota zeta. do 2 (erewrite bind_ok by reflexivity).
    cbn [Py.get]. rewrite Hpath.
    erewrite bind_ok by (by eapply load_state_ok).
    cbv beta iota zeta. unfold mbind, M_bind, lift. by rewrite Hget.
Qed.


(** *** Transitions, once more *)

(** What a due transition does, whatever made it due. *)
Lemma transition_enters env w config path state names :
  transitions w config path state names →
  ∃ status q state1 w5,
    Py.lookup "status" state = Some (JStr status)
    ∧ next_in_cycle names status (default JNull (Py.lookup "phase" state))
      = Some q
    ∧ (state1 = state ∨ bump state = Ok state1)
    ∧ after_commands (loaded path w) w5
    ∧ main env w
      = match default (JStr DEFAULT_PROMPTS_DIR)
                (Py.lookup "prompts_dir" config) with
        | JStr dir => delivered dir path q state1 w5
        | _ => (Raise TypeError, stored path q state1 w5)
        end.
Proof.
  intros (Hloads & Hphases & Hnames & Hstatus & Hit & Htyped).
  assert (default (JList []) (Py.lookup "phases" config)
          = JList (JStr <$> names)) as Hphases' by (by rewrite Hphases).
  assert (∃ status, Py.lookup "status" state = Some (JStr status)
    ∧ (status = "COMPLETED"
       ∨ (status = "FAILED" ∧ cleanup_passes config state path w)))
    as (status & Hstatus' & Hdue).
  { destruct Hstatus as [Hc|[Hf Hpass]]; eexists; (split; [done|]); auto. }
  destruct (determine_next config state names status path w Hphases' Hnames
              Hdue Hit) as (q & state1 & w4 & Hq & Hst1 & Hw4 & Hdet).
  destruct (pre_phase_typed config q w4 Htyped) as (w5 & Hpre & Hw5).
  exists status, q, state1, w5. split; [done|]. split; [done|].
  split; [done|]. split; [by eapply after_commands_trans|].
  eapply main_enters_from; [done| |..|done|done].
  - by rewrite Hstatus'.
  - destruct Hdue as [|[? _]]; auto.
Qed.

Lemma pre_phase_fails config scripts q c w :
  Py.lookup "phase_scripts" config = Some (JDict scripts) →
  Py.lookup q scripts = Some (JStr c) →
  c ≠ EmptyString →
  exit_ok c w = false →
  execute_pre_phase_scripts (JDict config) (JStr q) w
  = (Ok tt, log (pre_phase_failed q) (log (command_failed c) (after_run c w))).
Proof.
  intros Hscripts Hq Hc Hexit.
  unfold execute_pre_phase_scripts, mbind, M_bind, lift. cbn [Py.get].
  rewrite Hscripts. cbn [from_option id Py.contains Py.getitem].
  rewrite Hq, bool_decide_eq_true_2 by done.
  by rewrite (run_command_str c w Hc), Hexit.
Qed.

(** X6.  The command before a phase is best effort.  When it exits
    non-zero the failure is printed and the transition goes on: the
    state is persisted and the prompt delivered, after the command, as
    [delivered] has it; with the prompt file [available] (readable, or
    missing) that is a normal return with the payload emitted. *)
Theorem pre_phase_failure_is_not_fatal env w config path state names i p q
    scripts c dir :
  loads w config path state →
  Py.lookup "phases" config = Some (JList (JStr <$> names)) →
  NoDup names →
  names !! i = Some p →
  names !! S i = Some q →
  Py.lookup "status" state = Some (JStr "COMPLETED") →
  Py.lookup "phase" state = Some (JStr p) →
  Py.lookup "phase_scripts" config = Some (JDict scripts) →
  Py.lookup q scripts = Some (JStr c) →
  c ≠ EmptyString →
  exit_ok c (loaded path w) = false →
  default (JStr DEFAULT_PROMPTS_DIR) (Py.lookup "prompts_dir" config) = JStr dir →
  let w5 := log (pre_phase_failed q)
              (log (command_failed c) (after_run c (loaded path w))) in
  main env w = delivered dir path q state w5
  ∧ (available
       (<[path := json_dumps (Some 2%nat) (JDict (arrive q state))]> (files w5))
       (prompt_path dir q) = true →
     main env w = (Ok tt, entered dir path q state w5)).
Proof.
  intros Hloads Hphases Hnd Hi Hq Hstatus Hphase Hscripts Hscript Hc Hexit Hdir
    w5.
  assert (default (JList []) (Py.lookup "phases" config) = JList (JStr <$> names))
    as Hphases' by (by rewrite Hphases).
  assert (default JNull (Py.lookup "status" state) = JStr "COMPLETED")
    as Hstatus' by (by rewrite Hstatus).
  pose proof (determine_advance config state names i p q
    (loaded path w) Hphases' Hnd Hi Hq Hphase) as Hdet.
  rewrite (main_enters_from env w config path state "COMPLETED" q state _ _
    Hloads Hstatus' (or_introl eq_refl) Hdet
    (pre_phase_fails config scripts q c _ Hscripts Hscript Hc Hexit)).
  rewrite Hdir. split; [done|]. apply delivered_available.
Qed.

(** X7.  A transition settles the loop.  Once an invocation has made a
    transition, the next one finds the status ACTIVE and does nothing,
    provided the record written decodes to itself and the configuration
    file is still what it was. *)
Theorem settled_after_transition env w config path state names :
  transitions w config path state names →
  files (main env w).2 !! CONFIG_PATH = files w !! CONFIG_PATH →
  (∀ q state1, q ∈ names → state1 = state ∨ bump state = Ok state1 →
     json_loads (json_dumps (Some 2%nat) (JDict (arrive q state1)))
     = Some (JDict (arrive q state1))) →
  main env (main env w).2 = (Ok tt, loaded path (main env w).2).
Proof.
  intros Htr Hconfig Hdecode.
  destruct (transition_enters env w config path state names Htr)
    as (status & q & state1 & w5 & _ & Hq%next_in_cycle_member & Hst1 & _
        & Hmain).
  destruct Htr as (((text & Hfile & Hdoc) & Hpath & _) & _).
  assert (files (main env w).2 !! path
          = Some (json_dumps (Some 2%nat) (JDict (arrive q state1)))) as Hstate.
  { rewrite Hmain.
    destruct (default _ (Py.lookup "prompts_dir" config));
      rewrite ?delivered_files; cbn [snd files stored];
      by rewrite lookup_insert_eq. }
  apply (main_ignores env _ config path (arrive q state1)).
  - split; [exists text; by rewrite Hconfig|]. split; [done|].
    eexists. split; [exact Hstate | by apply Hdecode].
  - by rewrite arrive_status.
  - by rewrite arrive_status.
Qed.

(** X8.  Whatever the documents hold, a record the engine writes has
    status ACTIVE and a phase that is an item of the configured phases:
    an element of the list, even when the loaded phase was none; a
    character of the string, when [phases] is a string. *)
Theorem writes_are_active_and_configured env w config path state :
  loads w config path state →
  ∃ new,
    events (main env w).2 = events w ++ new
    ∧ ∀ p written, EvWrite p written ∈ new →
        ∃ persisted next_phase,
          written = json_dumps (Some 2%nat) (JDict persisted)
          ∧ Py.lookup "status" persisted = Some (JStr "ACTIVE")
          ∧ Py.lookup "phase" persisted = Some next_phase
          ∧ item_of (default (JList []) (Py.lookup "phases" config)) next_phase.
Proof.
  intros Hloads.
  destruct (main_writes_advance env w config path state Hloads)
    as (new & Hev & Hnew).
  exists new. split; [done|]. intros p written Hin.
  rewrite Forall_forall in Hnew.
  destruct (Hnew _ Hin)
    as (_ & persisted & -> & next_phase & state1 & (Hphase & _) & ->).
  eexists _, next_phase. split; [done|].
  split; [apply lookup_store_eq|].
  split; [|done]. rewrite lookup_store_ne by done. apply lookup_store_eq.
Qed.

(** X9.  The iteration never goes down and never jumps: whatever the
    configuration holds, a record the engine writes carries the loaded
    iteration entry, or the loaded iteration plus one. *)
Theorem iteration_steps_by_at_most_one env w config path state it :
  loads w config path state →
  default (JInt 1) (Py.lookup "iteration" state) = JInt it →
  ∃ new,
    events (main env w).2 = events w ++ new
    ∧ ∀ p written, EvWrite p written ∈ new →
        ∃ persisted,
          written = json_dumps (Some 2%nat) (JDict persisted)
          ∧ (Py.lookup "iteration" persisted = Py.lookup "iteration" state
             ∨ Py.lookup "iteration" persisted = Some (JInt (it + 1))).
Proof.
  intros Hloads Hit.
  destruct (main_writes_advance env w config path state Hloads)
    as (new & Hev & Hnew).
  exists new. split; [done|]. intros p written Hin.
  rewrite Forall_forall in Hnew.
  destruct (Hnew _ Hin)
    as (_ & persisted & -> & next_phase & state1 & (_ & Hstate1) & ->).
  eexists. split; [done|]. rewrite !lookup_store_ne by done.
  destruct Hstate1 as [[= ->]|(bumped & Hbump & [= ->])]; [by left|].
  right. rewrite (bump_integer _ _ Hit) in Hbump. injection Hbump as <-.
  apply lookup_store_eq.
Qed.



Lemma determine_wrap_outcome config state names i p first rest w :
  default (JList []) (Py.lookup "phases" config) = JList (JStr <$> names) →
  NoDup names →
  names !! i = Some p →
  S i = length names →
  names = first :: rest →
  Py.lookup "phase" state = Some (JStr p) →
  determine_transition (JDict config) (JDict state) (JStr "COMPLETED") w
  = (match bump state with
     | Ok bumped => Ok (Some (JStr first, JDict bumped))
     | Raise e => Raise e
     | Stuck => Stuck
     end, w).
Proof.
  intros Hphases Hnd Hi Hlast Hnames Hphase.
  unfold determine_transition, mbind, M_bind, lift, try_except.
  cbn [Py.get]. rewrite Hphases, Hphase. cbn [from_option id Py.truthy Py.index].
  rewrite length_fmap, bool_decide_eq_false_2 by lia.
  rewrite (index_from_found _ _ _ _ Hnd Hi).
  cbn [negb Py.eq Py.len]. rewrite length_fmap.
  rewrite bool_decide_eq_false_2 by done.
  unfold Py.mod_. destruct (Z.of_nat (length names) =? 0) eqn:Hz; [lia|].
  replace (0 + Z.of_nat i + 1) with (Z.of_nat (length names)) by lia.
  rewrite Z_mod_same_full. change 0 with (Z.of_nat 0).
  cbn [Py.getitem]. rewrite (list_item_strings _ 0%nat first) by (by rewrite Hnames).
  cbn [Z.of_nat Z.eqb]. unfold bump. by destruct (Py.add1 _).
Qed.

(** X12.  An iteration that is not a number stops the loop at the end
    of a cycle: when the last phase completes, [+ 1] raises [TypeError]
    before anything is written, so the state file stays COMPLETED. *)
Theorem bad_iteration_blocks_wrap env w config path state names i p v :
  loads w config path state →
  Py.lookup "phases" config = Some (JList (JStr <$> names)) →
  NoDup names →
  names !! i = Some p →
  S i = length names →
  Py.lookup "status" state = Some (JStr "COMPLETED") →
  Py.lookup "phase" state = Some (JStr p) →
  Py.lookup "iteration" state = Some v →
  Py.add1 v = Raise TypeError →
  (main env w).1 = Raise TypeError
  ∧ files (main env w).2 = files w
  ∧ events (main env w).2
    = events w ++ [EvRead CONFIG_PATH; EvExists path; EvRead path].
Proof.
  intros Hloads Hphases Hnd Hi Hlast Hstatus Hphase Hit Hadd.
  pose proof (lookup_lt_Some _ _ _ Hi) as Hlt.
  destruct names as [|first rest] eqn:Hnames; [simpl in Hlt; lia|].
  rewrite <- Hnames in *.
  assert (default (JList []) (Py.lookup "phases" config) = JList (JStr <$> names))
    as Hphases' by (by rewrite Hphases).
  pose proof (determine_wrap_outcome config state names i p first rest
    (loaded path w) Hphases' Hnd Hi Hlast Hnames Hphase) as Hdet.
  unfold bump in Hdet. rewrite Hit in Hdet. cbn [from_option id] in Hdet.
  rewrite Hadd in Hdet.
  assert (main env w = (Raise TypeError, loaded path w)) as ->.
  { load_main Hloads. rewrite Hstatus. cbn [from_option id].
    do 2 (erewrite bind_ok by reflexivity). cbn [negb].
    unfold mbind, M_bind. by rewrite Hdet. }
  cbn [fst snd]. by rewrite loaded_files, loaded_events.
Qed.

(** X13.  A prompts directory that is not a string leaves a transition
    half done: the new state is persisted, then joining the path raises
    [TypeError], and no payload is emitted. *)
Theorem bad_prompts_dir_loses_payload env w config path state names v :
  transitions w config path state names →
  Py.lookup "prompts_dir" config = Some v →
  (∀ dir, v ≠ JStr dir) →
  ∃ commands q persisted,
    (main env w).1 = Raise TypeError
    ∧ files (main env w).2 !! path
      = Some (json_dumps (Some 2%nat) (JDict persisted))
    ∧ Py.lookup "phase" persisted = Some (JStr q)
    ∧ Py.lookup "status" persisted = Some (JStr "ACTIVE")
    ∧ Forall engine_event commands
    ∧ events (main env w).2
      = events w ++ [EvRead CONFIG_PATH; EvExists path; EvRead path]
        ++ commands
        ++ [EvWrite path (json_dumps (Some 2%nat) (JDict persisted))].
Proof.
  intros Htr Hdir Hv.
  destruct (transition_enters env w config path state names Htr)
    as (status & q & state1 & w5 & _ & _ & _ & (commands & Hev & Hcommands)
        & Hmain).
  rewrite Hdir in Hmain. cbn [from_option id] in Hmain.
  assert (main env w = (Raise TypeError, stored path q state1 w5)) as ->.
  { rewrite Hmain. destruct v; try done. by destruct (Hv s). }
  cbn [fst snd stored files events].
  exists commands, q, (arrive q state1). split; [done|].
  split; [by rewrite lookup_insert_eq|].
  split; [apply arrive_phase|]. split; [apply arrive_status|].
  split; [done|]. rewrite Hev, loaded_events. by rewrite <- !app_assoc.
Qed.


(** X21.  No configuration file: the invocation tries to open it and
    returns; nothing is printed, nothing else is looked at.  That is so
    when the file is missing; when its path runs through a regular file
    ([.gemini] or [.gemini/ralph] is a file) opening raises
    [NotADirectoryError], which step 1 does not catch. *)
Theorem absent_configuration_outcome env w :
  files w !! CONFIG_PATH = None →
  main env w
  = (if through_file (files w) CONFIG_PATH then Raise NotADirectoryError
     else Ok tt,
     log (EvRead CONFIG_PATH) w).
Proof.
  intros Hnone. unfold main, mbind, M_bind.
  rewrite (load_configuration_absent _ Hnone).
  by destruct (through_file _ _).
Qed.

End Invocations.

(** ** The bootstrapper *)

Section BootstrapperFacts.

Context `{Runtime}.

Implicit Types (w : world) (argv : list string)
  (config state : list (string * json)).

Lemma init_load_ok w text (doc : json) :
  files w !! INIT_CONFIG_PATH = Some text →
  json_loads text = Some doc →
  try_except
    (text ← open_read (JStr INIT_CONFIG_PATH);
     config ← json_load text;
     mret (Some config))
    FileNotFoundError
    (print INIT_NO_CONFIG;; mret None) w
  = (Ok (Some doc), log (EvRead INIT_CONFIG_PATH) w).
Proof.
  intros Hfile Hdoc.
  unfold try_except, mbind, M_bind, open_read, json_load.
  by rewrite Hfile, Hdoc.
Qed.

(** [init] up to its step 4: the state file is written and reported. *)
Lemma init_initialises argv w text config first rest path :
  files w !! INIT_CONFIG_PATH = Some text →
  json_loads text = Some (JDict config) →
  default (JList []) (Py.lookup "phases" config) = JList (first :: rest) →
  default (JStr INIT_DEFAULT_STATE_FILE) (Py.lookup "state_file" config)
  = JStr path →
  files (init argv w).2 = files (initialised path first w)
  ∧ ("--print-prompt" ∉ argv →
     init argv w
     = (Ok tt, {| files := files (initialised path first w);
                  events := events (initialised path first w) ++ ready first |})).
Proof.
  intros Hfile Hdoc Hphases Hpath. unfold init.
  erewrite bind_ok by (by eapply init_load_ok).
  cbv beta iota zeta. cbn [Py.get]. rewrite Hphases, Hpath.
  do 2 (erewrite bind_ok by reflexivity).
  change (negb (negb (bool_decide (length (first :: rest) = 0%nat)))) with false.
  cbv iota.
  do 2 (erewrite bind_ok by reflexivity).
  erewrite bind_ok by reflexivity.
  do 2 (erewrite bind_ok by reflexivity).
  cbn [Py.str]. split.
  - destruct (bool_decide ("--print-prompt" ∈ argv)).
    + unfold mbind, M_bind, lift, try_except, open_read, f_read, open_error,
        print, emit.
      destruct (Py.lower first); [|done..].
      destruct (os_path.join _ _); [|done..]. cbn [log files].
      destruct (<[_ := _]> _ !! _) as [content|].
      * by destruct (decodable content).
      * by destruct (through_file _ _).
    + reflexivity.
  - intros Hflag. rewrite bool_decide_eq_false_2 by done.
    unfold mbind, M_bind, print, emit, initialised, ready, log. cbn.
    by rewrite <- !app_assoc.
Qed.

(** X14.  Without [ralph_config.json] the bootstrapper says so and
    stops: nothing is written. *)
Theorem init_reports_missing_config argv w :
  files w !! INIT_CONFIG_PATH = None →
  init argv w
  = (Ok tt, {| files := files w;
               events := events w ++ [EvRead INIT_CONFIG_PATH;
                                      EvPrint INIT_NO_CONFIG] |}).
Proof.
  intros Hnone.
  unfold init, try_except, mbind, M_bind, open_read, print, emit, log.
  rewrite Hnone. cbn. by rewrite <- app_assoc.
Qed.

(** X15.  With no phase configured (no [phases] entry, an empty list,
    null) the bootstrapper says so and stops before it writes a state. *)
Theorem init_reports_missing_phases argv w text config :
  files w !! INIT_CONFIG_PATH = Some text →
  json_loads text = Some (JDict config) →
  Py.truthy (default (JList []) (Py.lookup "phases" config)) = Ok false →
  init argv w
  = (Ok tt, {| files := files w;
               events := events w ++ [EvRead INIT_CONFIG_PATH;
                                      EvPrint INIT_NO_PHASES] |}).
Proof.
  intros Hfile Hdoc Hempty. unfold init.
  erewrite bind_ok by (by eapply init_load_ok).
  cbv beta iota zeta. cbn [Py.get].
  erewrite bind_ok by reflexivity.
  erewrite bind_ok by (unfold lift; by rewrite Hempty).
  unfold print, emit, log. cbn. by rewrite <- app_assoc.
Qed.

(** X16.  The bootstrapper starts afresh.  Whatever the state file held
    (history, metrics, a running loop), it now holds the fresh record:
    status ACTIVE, the first configured phase, iteration 1, empty history
    and metrics.  No other file changes, with or without
    [--print-prompt]; without it the call returns after four lines of
    confirmation. *)
Theorem init_starts_afresh argv w text config first rest path :
  files w !! INIT_CONFIG_PATH = Some text →
  json_loads text = Some (JDict config) →
  default (JList []) (Py.lookup "phases" config) = JList (first :: rest) →
  default (JStr INIT_DEFAULT_STATE_FILE) (Py.lookup "state_file" config)
  = JStr path →
  files (init argv w).2
  = <[path := json_dumps (Some 2%nat)
                (JDict [("status", JStr "ACTIVE"); ("phase", first);
                        ("iteration", JInt 1); ("history", JList []);
                        ("metrics", JDict [])])]> (files w)
  ∧ ("--print-prompt" ∉ argv →
     (init argv w).1 = Ok tt
     ∧ events (init argv w).2
       = events w ++ [EvRead INIT_CONFIG_PATH;
                      EvWrite path (json_dumps (Some 2%nat) (fresh_state first));
                      EvPrint ("[Ralph Init] Loop Initialized. Phase: "
                               +:+ Py.str first);
                      EvPrint ("[Ralph Init] State saved to: " +:+ path)]
         ++ ready first).
Proof.
  intros Hfile Hdoc Hphases Hpath.
  destruct (init_initialises argv w text config first rest path
              Hfile Hdoc Hphases Hpath) as (Hfiles & Hplain).
  split; [by rewrite Hfiles|]. intros Hflag. rewrite (Hplain Hflag).
  cbn [fst snd events initialised]. split; [done|]. by rewrite <- app_assoc.
Qed.

(** X17.  Running the bootstrapper again changes nothing more: the
    files after a second call are the files after the first, as long as
    the state file is not the configuration file itself. *)
Theorem init_twice_is_init_once argv argv' w text config first rest path :
  files w !! INIT_CONFIG_PATH = Some text →
  json_loads text = Some (JDict config) →
  default (JList []) (Py.lookup "phases" config) = JList (first :: rest) →
  default (JStr INIT_DEFAULT_STATE_FILE) (Py.lookup "state_file" config)
  = JStr path →
  path ≠ INIT_CONFIG_PATH →
  files (init argv' (init argv w).2).2 = files (init argv w).2.
Proof.
  intros Hfile Hdoc Hphases Hpath Hne.
  destruct (init_initialises argv w text config first rest path
              Hfile Hdoc Hphases Hpath) as (Hfiles & _).
  assert (files (init argv w).2 !! INIT_CONFIG_PATH = Some text) as Hfile'.
  { rewrite Hfiles. cbn [files initialised]. by rewrite lookup_insert_ne. }
  destruct (init_initialises argv' (init argv w).2 text config first rest path
              Hfile' Hdoc Hphases Hpath) as (Hfiles' & _).
  rewrite Hfiles'. cbn [files initialised]. rewrite Hfiles.
  cbn [files initialised]. apply insert_insert_eq.
Qed.

(** X18.  The two programs do not agree on where the state lives.  When
    neither configuration names a state file, the bootstrapper writes
    [.ralph_state.json] and the engine looks for
    [.gemini/ralph/state.json]: run after the bootstrapper on a project
    that has no such file, the engine finds no state and does nothing. *)
Theorem engine_misses_default_init_state env argv w text0 config0 first rest
    text config :
  files w !! INIT_CONFIG_PATH = Some text0 →
  json_loads text0 = Some (JDict config0) →
  default (JList []) (Py.lookup "phases" config0) = JList (first :: rest) →
  Py.lookup "state_file" config0 = None →
  files w !! CONFIG_PATH = Some text →
  json_loads text = Some (JDict config) →
  Py.lookup "state_file" config = None →
  files w !! DEFAULT_STATE_FILE = None →
  files (init argv w).2 !! INIT_DEFAULT_STATE_FILE
  = Some (json_dumps (Some 2%nat) (fresh_state first))
  ∧ (main env (init argv w).2).1 = Ok tt
  ∧ files (main env (init argv w).2).2 = files (init argv w).2
  ∧ events (main env (init argv w).2).2
    = events (init argv w).2 ++ [EvRead CONFIG_PATH; EvExists DEFAULT_STATE_FILE].
Proof.
  intros Hfile0 Hdoc0 Hphases Hpath0 Hfile Hdoc Hpath Hnone.
  destruct (init_initialises argv w text0 config0 first rest
              INIT_DEFAULT_STATE_FILE Hfile0 Hdoc0 Hphases)
    as (Hfiles & _); [by rewrite Hpath0|].
  split; [rewrite Hfiles; apply lookup_insert_eq|].
  rewrite (main_state_absent env _ text config DEFAULT_STATE_FILE).
  - cbn. by rewrite <- app_assoc.
  - rewrite Hfiles. cbn [files initialised]. by rewrite lookup_insert_ne.
  - done.
  - by rewrite Hpath.
  - rewrite Hfiles. cbn [files initialised]. by rewrite lookup_insert_ne.
Qed.

(** X19.  When both configurations name the same state file, the engine
    leaves a freshly started loop alone: the record the bootstrapper
    wrote has status ACTIVE, so an invocation right after it only reads
    (the fresh record decoding to itself). *)
Theorem engine_leaves_fresh_loop_alone env argv w text0 config0 first rest
    text config path :
  files w !! INIT_CONFIG_PATH = Some text0 →
  json_loads text0 = Some (JDict config0) →
  default (JList []) (Py.lookup "phases" config0) = JList (first :: rest) →
  default (JStr INIT_DEFAULT_STATE_FILE) (Py.lookup "state_file" config0)
  = JStr path →
  files w !! CONFIG_PATH = Some text →
  json_loads text = Some (JDict config) →
  default (JStr DEFAULT_STATE_FILE) (Py.lookup "state_file" config) = JStr path →
  path ≠ CONFIG_PATH →
  json_loads (json_dumps (Some 2%nat) (fresh_state first))
  = Some (fresh_state first) →
  (main env (init argv w).2).1 = Ok tt
  ∧ files (main env (init argv w).2).2 = files (init argv w).2
  ∧ events (main env (init argv w).2).2
    = events (init argv w).2 ++ [EvRead CONFIG_PATH; EvExists path; EvRead path].
Proof.
  intros Hfile0 Hdoc0 Hphases Hpath0 Hfile Hdoc Hpath Hne Hdecode.
  destruct (init_initialises argv w text0 config0 first rest path
              Hfile0 Hdoc0 Hphases Hpath0) as (Hfiles & _).
  rewrite (main_ignores env (init argv w).2 config path
    [("status", JStr "ACTIVE"); ("phase", first); ("iteration", JInt 1);
     ("history", JList []); ("metrics", JDict [])]).
  - cbn [fst snd]. by rewrite loaded_files, loaded_events.
  - split; [|split; [done|]].
    + exists text. split; [|done]. rewrite Hfiles. cbn [files initialised].
      by rewrite lookup_insert_ne.
    + eexists. split; [|exact Hdecode]. rewrite Hfiles.
      apply lookup_insert_eq.
  - done.
  - done.
Qed.



End BootstrapperFacts.

(** ** These properties at work on the example projects *)

Section Illustrations.

Local Existing Instance Cases.rt.

(** Both documents of an example project load. *)
Ltac case_loads config state :=
  split; [exists (Demo.render (JDict config)); split; vm_compute; reflexivity|];
  split; [vm_compute; reflexivity|];
  exists (Demo.render (JDict state)); split; vm_compute; reflexivity.

Ltac distinct := apply (bool_decide_unpack _); vm_compute; exact I.

(** A command that exits non-zero: reported as [False], and printed. *)
Lemma run_command_contract_witness :
  "exit 1" ≠ EmptyString
  ∧ run_command (JStr "exit 1") Cases.bare
    = (Ok false,
       log (command_failed "exit 1") (after_run "exit 1" Cases.bare)).
Proof.
  split; [discriminate|].
  destruct (run_command_contract "exit 1" Cases.bare) as (_ & _ & Hruns).
  apply Hruns. discriminate.
Defined.


(** A state file cut short, and a state file that is not text. *)
Lemma corrupt_state_outcome_witness :
  json_loads "{ status: " = None
  ∧ ((main ∅ (Cases.corrupt Demo.plan_build_test)).1 = Ok tt
     ∧ files (main ∅ (Cases.corrupt Demo.plan_build_test)).2
       = files (Cases.corrupt Demo.plan_build_test)
     ∧ events (main ∅ (Cases.corrupt Demo.plan_build_test)).2
       = events (Cases.corrupt Demo.plan_build_test)
         ++ [EvRead CONFIG_PATH; EvExists DEFAULT_STATE_FILE;
             EvRead DEFAULT_STATE_FILE])
  ∧ ((main ∅ (Cases.garbled Demo.plan_build_test)).1 = Raise UnicodeDecodeError
     ∧ files (main ∅ (Cases.garbled Demo.plan_build_test)).2
       = files (Cases.garbled Demo.plan_build_test)
     ∧ events (main ∅ (Cases.garbled Demo.plan_build_test)).2
       = events (Cases.garbled Demo.plan_build_test)
         ++ [EvRead CONFIG_PATH; EvExists DEFAULT_STATE_FILE;
             EvRead DEFAULT_STATE_FILE]).
Proof.
  split; [vm_compute; reflexivity|]. split.
  - destruct (corrupt_state_outcome ∅ (Cases.corrupt Demo.plan_build_test)
                (Demo.render (JDict Demo.plan_build_test)) Demo.plan_build_test
                DEFAULT_STATE_FILE "{ status: ")
      as (Hreturns & Hfiles & Hevents); [vm_compute; reflexivity..|].
    split; [exact Hreturns|]. split; [exact Hfiles | exact Hevents].
  - destruct (corrupt_state_outcome ∅ (Cases.garbled Demo.plan_build_test)
                (Demo.render (JDict Demo.plan_build_test)) Demo.plan_build_test
                DEFAULT_STATE_FILE (String (ascii_of_nat 255) EmptyString))
      as (Hraises & Hfiles & Hevents); [vm_compute; reflexivity..|].
    split; [exact Hraises|]. split; [exact Hfiles | exact Hevents].
Defined.

(** A configuration file that is not JSON. *)
Lemma corrupt_configuration_raises_witness :
  json_loads "{ phases: PLAN" = None
  ∧ (main ∅ Demo.broken).1 = Raise JSONDecodeError
  ∧ files (main ∅ Demo.broken).2 = files Demo.broken
  ∧ events (main ∅ Demo.broken).2 = events Demo.broken ++ [EvRead CONFIG_PATH].
Proof.
  split; [vm_compute; reflexivity|].
  destruct (corrupt_configuration_raises ∅ Demo.broken "{ phases: PLAN")
    as (Hraises & Hfiles & Hevents); [vm_compute; reflexivity..|].
  split; [exact Hraises|]. split; [exact Hfiles | exact Hevents].
Defined.

(** A configuration file that holds the empty list. *)
Lemma non_object_documents_raise_witness :
  json_loads "[]" = Some (JList [])
  ∧ main ∅ Cases.listed = (Raise AttributeError, log (EvRead CONFIG_PATH) Cases.listed).
Proof.
  split; [vm_compute; reflexivity|].
  destruct (non_object_documents_raise ∅ Cases.listed "[]" (JList []))
    as (Hconfig & _).
  - vm_compute. reflexivity.
  - discriminate.
  - apply Hconfig. vm_compute. reflexivity.
Defined.

(** PLAN completed, and the command before BUILD exits non-zero: BUILD
    is entered all the same. *)
Lemma pre_phase_failure_is_not_fatal_witness :
  exit_ok "exit 1"
    (loaded DEFAULT_STATE_FILE (Demo.disk Cases.hooked Cases.plan_completed))
  = false
  ∧ main ∅ (Demo.disk Cases.hooked Cases.plan_completed)
    = (Ok tt,
       entered DEFAULT_PROMPTS_DIR DEFAULT_STATE_FILE "BUILD" Cases.plan_completed
         (log (pre_phase_failed "BUILD")
            (log (command_failed "exit 1")
               (after_run "exit 1"
                  (loaded DEFAULT_STATE_FILE
                     (Demo.disk Cases.hooked Cases.plan_completed)))))).
Proof.
  split; [vm_compute; reflexivity|].
  destruct (pre_phase_failure_is_not_fatal ∅
              (Demo.disk Cases.hooked Cases.plan_completed)
              Cases.hooked DEFAULT_STATE_FILE Cases.plan_completed
              ["PLAN"; "BUILD"; "TEST"] 0 "PLAN" "BUILD"
              [("BUILD", JStr "exit 1")] "exit 1" DEFAULT_PROMPTS_DIR)
    as (_ & Henters).
  - case_loads Cases.hooked Cases.plan_completed.
  - reflexivity.
  - distinct.
  - reflexivity.
  - reflexivity.
  - reflexivity.
  - reflexivity.
  - reflexivity.
  - reflexivity.
  - discriminate.
  - vm_compute. reflexivity.
  - reflexivity.
  - apply Henters. vm_compute. reflexivity.
Defined.

(** B completed in a loop of two phases: the invocation after the wrap
    does nothing. *)
Lemma settled_after_transition_witness :
  transitions (Demo.disk Demo.a_b Cases.b_completed) Demo.a_b
    DEFAULT_STATE_FILE Cases.b_completed ["A"; "B"]
  ∧ main ∅ (main ∅ (Demo.disk Demo.a_b Cases.b_completed)).2
    = (Ok tt,
       loaded DEFAULT_STATE_FILE (main ∅ (Demo.disk Demo.a_b Cases.b_completed)).2).
Proof.
  assert (transitions (Demo.disk Demo.a_b Cases.b_completed) Demo.a_b
            DEFAULT_STATE_FILE Cases.b_completed ["A"; "B"]) as Hdue.
  { split; [case_loads Demo.a_b Cases.b_completed|].
    split; [reflexivity|]. split; [discriminate|].
    split; [by left|]. split; [by exists 1 | reflexivity]. }
  split; [exact Hdue|].
  apply (settled_after_transition ∅ (Demo.disk Demo.a_b Cases.b_completed)
           Demo.a_b DEFAULT_STATE_FILE Cases.b_completed ["A"; "B"] Hdue).
  - vm_compute. reflexivity.
  - intros q state1 Hq Hstate1.
    assert (q = "A" ∨ q = "B") as Hq'.
    { apply elem_of_cons in Hq as [->|Hq]; [by left|].
      apply elem_of_cons in Hq as [->|Hq]; [by right|].
      by apply elem_of_nil in Hq. }
    assert (state1 = Cases.b_completed
            ∨ state1 = Py.store "iteration" (JInt 2) Cases.b_completed)
      as Hstate1'.
    { destruct Hstate1 as [->|Hbump]; [by left|]. right.
      vm_compute in Hbump. injection Hbump as <-. reflexivity. }
    destruct Hq' as [-> | ->], Hstate1' as [-> | ->]; vm_compute; reflexivity.
Defined.

(** Phases that are the string PLAN, and P completed: what is written
    names a letter of PLAN. *)
Lemma writes_are_active_and_configured_witness :
  loads (Demo.disk Cases.lettered Cases.p_completed)
    Cases.lettered DEFAULT_STATE_FILE Cases.p_completed
  ∧ ∃ new,
      events (main ∅ (Demo.disk Cases.lettered Cases.p_completed)).2
      = events (Demo.disk Cases.lettered Cases.p_completed) ++ new
      ∧ ∀ p written, EvWrite p written ∈ new →
          ∃ persisted next_phase,
            written = json_dumps (Some 2%nat) (JDict persisted)
            ∧ Py.lookup "status" persisted = Some (JStr "ACTIVE")
            ∧ Py.lookup "phase" persisted = Some next_phase
            ∧ item_of (default (JList []) (Py.lookup "phases" Cases.lettered))
                next_phase.
Proof.
  split; [case_loads Cases.lettered Cases.p_completed|].
  apply (writes_are_active_and_configured ∅
           (Demo.disk Cases.lettered Cases.p_completed)
           Cases.lettered DEFAULT_STATE_FILE Cases.p_completed).
  case_loads Cases.lettered Cases.p_completed.
Defined.

(** TEST completed at iteration 3: what is written holds 3 or 4. *)
Lemma iteration_steps_by_at_most_one_witness :
  loads (Demo.disk Demo.plan_build_test Demo.test_completed)
    Demo.plan_build_test DEFAULT_STATE_FILE Demo.test_completed
  ∧ ∃ new,
      events (main ∅ (Demo.disk Demo.plan_build_test Demo.test_completed)).2
      = events (Demo.disk Demo.plan_build_test Demo.test_completed) ++ new
      ∧ ∀ p written, EvWrite p written ∈ new →
          ∃ persisted,
            written = json_dumps (Some 2%nat) (JDict persisted)
            ∧ (Py.lookup "iteration" persisted
               = Py.lookup "iteration" Demo.test_completed
               ∨ Py.lookup "iteration" persisted = Some (JInt (3 + 1))).
Proof.
  split; [case_loads Demo.plan_build_test Demo.test_completed|].
  apply (iteration_steps_by_at_most_one ∅
           (Demo.disk Demo.plan_build_test Demo.test_completed)
           Demo.plan_build_test DEFAULT_STATE_FILE Demo.test_completed 3).
  - case_loads Demo.plan_build_test Demo.test_completed.
  - reflexivity.
Defined.



(** TEST completed with the iteration spelled out. *)
Lemma bad_iteration_blocks_wrap_witness :
  Py.add1 (JStr "three") = Raise TypeError
  ∧ (main ∅ (Demo.disk Demo.plan_build_test Cases.test_spoiled)).1
    = Raise TypeError
  ∧ files (main ∅ (Demo.disk Demo.plan_build_test Cases.test_spoiled)).2
    = files (Demo.disk Demo.plan_build_test Cases.test_spoiled)
  ∧ events (main ∅ (Demo.disk Demo.plan_build_test Cases.test_spoiled)).2
    = events (Demo.disk Demo.plan_build_test Cases.test_spoiled)
      ++ [EvRead CONFIG_PATH; EvExists DEFAULT_STATE_FILE;
          EvRead DEFAULT_STATE_FILE].
Proof.
  split; [reflexivity|].
  apply (bad_iteration_blocks_wrap ∅
           (Demo.disk Demo.plan_build_test Cases.test_spoiled)
           Demo.plan_build_test DEFAULT_STATE_FILE Cases.test_spoiled
           ["PLAN"; "BUILD"; "TEST"] 2 "TEST" (JStr "three")).
  - case_loads Demo.plan_build_test Cases.test_spoiled.
  - reflexivity.
  - distinct.
  - reflexivity.
  - reflexivity.
  - reflexivity.
  - reflexivity.
  - reflexivity.
  - reflexivity.
Defined.

(** PLAN completed under a prompts directory that is the number 5. *)
Lemma bad_prompts_dir_loses_payload_witness :
  transitions (Demo.disk Cases.misdirected Cases.plan_completed)
    Cases.misdirected DEFAULT_STATE_FILE Cases.plan_completed ["PLAN"; "BUILD"]
  ∧ ∃ commands q persisted,
      (main ∅ (Demo.disk Cases.misdirected Cases.plan_completed)).1
      = Raise TypeError
      ∧ files (main ∅ (Demo.disk Cases.misdirected Cases.plan_completed)).2
          !! DEFAULT_STATE_FILE
        = Some (json_dumps (Some 2%nat) (JDict persisted))
      ∧ Py.lookup "phase" persisted = Some (JStr q)
      ∧ Py.lookup "status" persisted = Some (JStr "ACTIVE")
      ∧ Forall engine_event commands
      ∧ events (main ∅ (Demo.disk Cases.misdirected Cases.plan_completed)).2
        = events (Demo.disk Cases.misdirected Cases.plan_completed)
          ++ [EvRead CONFIG_PATH; EvExists DEFAULT_STATE_FILE;
              EvRead DEFAULT_STATE_FILE]
          ++ commands
          ++ [EvWrite DEFAULT_STATE_FILE
                (json_dumps (Some 2%nat) (JDict persisted))].
Proof.
  assert (transitions (Demo.disk Cases.misdirected Cases.plan_completed)
            Cases.misdirected DEFAULT_STATE_FILE Cases.plan_completed
            ["PLAN"; "BUILD"]) as Hdue.
  { split; [case_loads Cases.misdirected Cases.plan_completed|].
    split; [reflexivity|]. split; [discriminate|].
    split; [by left|]. split; [by exists 1 | reflexivity]. }
  split; [exact Hdue|].
  apply (bad_prompts_dir_loses_payload ∅
           (Demo.disk Cases.misdirected Cases.plan_completed)
           Cases.misdirected DEFAULT_STATE_FILE Cases.plan_completed
           ["PLAN"; "BUILD"] (JInt 5) Hdue).
  - reflexivity.
  - discriminate.
Defined.

(** The bootstrapper in an empty directory. *)
Lemma init_reports_missing_config_witness :
  files Cases.bare !! INIT_CONFIG_PATH = None
  ∧ init ["ralph_init.py"] Cases.bare
    = (Ok tt, {| files := files Cases.bare;
                 events := events Cases.bare
                           ++ [EvRead INIT_CONFIG_PATH;
                               EvPrint INIT_NO_CONFIG] |}).
Proof.
  split; [reflexivity|].
  apply (init_reports_missing_config ["ralph_init.py"] Cases.bare).
  reflexivity.
Defined.

(** The bootstrapper on a configuration whose list of phases is empty:
    the state an earlier loop left stays. *)
Lemma init_reports_missing_phases_witness :
  Py.truthy (default (JList []) (Py.lookup "phases" Demo.unconfigured))
  = Ok false
  ∧ init ["ralph_init.py"] (Cases.checkout Demo.unconfigured Demo.test_completed)
    = (Ok tt,
       {| files := files (Cases.checkout Demo.unconfigured Demo.test_completed);
          events := events (Cases.checkout Demo.unconfigured Demo.test_completed)
                    ++ [EvRead INIT_CONFIG_PATH; EvPrint INIT_NO_PHASES] |}).
Proof.
  split; [reflexivity|].
  apply (init_reports_missing_phases ["ralph_init.py"]
           (Cases.checkout Demo.unconfigured Demo.test_completed)
           (Demo.render (JDict Demo.unconfigured)) Demo.unconfigured);
    vm_compute; reflexivity.
Defined.

(** The bootstrapper over the state of a loop at iteration 3. *)
Lemma init_starts_afresh_witness :
  files (Cases.checkout Demo.plan_build_test Demo.test_completed)
    !! INIT_DEFAULT_STATE_FILE
  = Some (Demo.render (JDict Demo.test_completed))
  ∧ files (init ["ralph_init.py"]
             (Cases.checkout Demo.plan_build_test Demo.test_completed)).2
    = <[INIT_DEFAULT_STATE_FILE :=
          json_dumps (Some 2%nat)
            (JDict [("status", JStr "ACTIVE"); ("phase", JStr "PLAN");
                    ("iteration", JInt 1); ("history", JList []);
                    ("metrics", JDict [])])]>
        (files (Cases.checkout Demo.plan_build_test Demo.test_completed))
  ∧ ("--print-prompt" ∉ ["ralph_init.py"] →
     (init ["ralph_init.py"]
        (Cases.checkout Demo.plan_build_test Demo.test_completed)).1 = Ok tt
     ∧ events (init ["ralph_init.py"]
                 (Cases.checkout Demo.plan_build_test Demo.test_completed)).2
       = events (Cases.checkout Demo.plan_build_test Demo.test_completed)
         ++ [EvRead INIT_CONFIG_PATH;
             EvWrite INIT_DEFAULT_STATE_FILE
               (json_dumps (Some 2%nat) (fresh_state (JStr "PLAN")));
             EvPrint ("[Ralph Init] Loop Initialized. Phase: "
                      +:+ Py.str (JStr "PLAN"));
             EvPrint ("[Ralph Init] State saved to: " +:+ INIT_DEFAULT_STATE_FILE)]
         ++ ready (JStr "PLAN")).
Proof.
  split; [vm_compute; reflexivity|].
  apply (init_starts_afresh ["ralph_init.py"]
           (Cases.checkout Demo.plan_build_test Demo.test_completed)
           (Demo.render (JDict Demo.plan_build_test)) Demo.plan_build_test
           (JStr "PLAN") [JStr "BUILD"; JStr "TEST"] INIT_DEFAULT_STATE_FILE);
    vm_compute; reflexivity.
Defined.

(** The bootstrapper twice, the second time with [--print-prompt]. *)
Lemma init_twice_is_init_once_witness :
  INIT_DEFAULT_STATE_FILE ≠ INIT_CONFIG_PATH
  ∧ files (init ["ralph_init.py"; "--print-prompt"]
             (init ["ralph_init.py"]
                (Cases.checkout Demo.plan_build_test Demo.test_completed)).2).2
    = files (init ["ralph_init.py"]
               (Cases.checkout Demo.plan_build_test Demo.test_completed)).2.
Proof.
  split; [discriminate|].
  apply (init_twice_is_init_once ["ralph_init.py"]
           ["ralph_init.py"; "--print-prompt"]
           (Cases.checkout Demo.plan_build_test Demo.test_completed)
           (Demo.render (JDict Demo.plan_build_test)) Demo.plan_build_test
           (JStr "PLAN") [JStr "BUILD"; JStr "TEST"] INIT_DEFAULT_STATE_FILE).
  - vm_compute. reflexivity.
  - vm_compute. reflexivity.
  - reflexivity.
  - reflexivity.
  - discriminate.
Defined.

(** The same configuration in both places, no state file named. *)
Lemma engine_misses_default_init_state_witness :
  files (Cases.both Demo.plan_build_test) !! DEFAULT_STATE_FILE = None
  ∧ files (init ["ralph_init.py"] (Cases.both Demo.plan_build_test)).2
      !! INIT_DEFAULT_STATE_FILE
    = Some (json_dumps (Some 2%nat) (fresh_state (JStr "PLAN")))
  ∧ (main ∅ (init ["ralph_init.py"] (Cases.both Demo.plan_build_test)).2).1
    = Ok tt
  ∧ files (main ∅ (init ["ralph_init.py"] (Cases.both Demo.plan_build_test)).2).2
    = files (init ["ralph_init.py"] (Cases.both Demo.plan_build_test)).2
  ∧ events
      (main ∅ (init ["ralph_init.py"] (Cases.both Demo.plan_build_test)).2).2
    = events (init ["ralph_init.py"] (Cases.both Demo.plan_build_test)).2
      ++ [EvRead CONFIG_PATH; EvExists DEFAULT_STATE_FILE].
Proof.
  split; [vm_compute; reflexivity|].
  apply (engine_misses_default_init_state ∅ ["ralph_init.py"]
           (Cases.both Demo.plan_build_test)
           (Demo.render (JDict Demo.plan_build_test)) Demo.plan_build_test
           (JStr "PLAN") [JStr "BUILD"; JStr "TEST"]
           (Demo.render (JDict Demo.plan_build_test)) Demo.plan_build_test);
    vm_compute; reflexivity.
Defined.

(** The same configuration in both places, naming [loop/state.json]. *)
Lemma engine_leaves_fresh_loop_alone_witness :
  json_loads (json_dumps (Some 2%nat) (fresh_state (JStr "PLAN")))
  = Some (fresh_state (JStr "PLAN"))
  ∧ (main ∅ (init ["ralph_init.py"] (Cases.both Cases.shared)).2).1 = Ok tt
  ∧ files (main ∅ (init ["ralph_init.py"] (Cases.both Cases.shared)).2).2
    = files (init ["ralph_init.py"] (Cases.both Cases.shared)).2
  ∧ events (main ∅ (init ["ralph_init.py"] (Cases.both Cases.shared)).2).2
    = events (init ["ralph_init.py"] (Cases.both Cases.shared)).2
      ++ [EvRead CONFIG_PATH; EvExists "loop/state.json";
          EvRead "loop/state.json"].
Proof.
  split; [vm_compute; reflexivity|].
  apply (engine_leaves_fresh_loop_alone ∅ ["ralph_init.py"]
           (Cases.both Cases.shared)
           (Demo.render (JDict Cases.shared)) Cases.shared
           (JStr "PLAN") [JStr "BUILD"]
           (Demo.render (JDict Cases.shared)) Cases.shared "loop/state.json").
  - vm_compute. reflexivity.
  - vm_compute. reflexivity.
  - reflexivity.
  - reflexivity.
  - vm_compute. reflexivity.
  - vm_compute. reflexivity.
  - reflexivity.
  - discriminate.
  - vm_compute. reflexivity.
Defined.

(** A project that lives elsewhere: nothing at the configuration path. *)
Lemma absent_configuration_outcome_witness :
  files Demo.elsewhere !! CONFIG_PATH = None
  ∧ main ∅ Demo.elsewhere = (Ok tt, log (EvRead CONFIG_PATH) Demo.elsewhere).
Proof.
  split; [vm_compute; reflexivity|].
  rewrite (absent_configuration_outcome ∅ Demo.elsewhere).
  - reflexivity.
  - vm_compute. reflexivity.
Defined.


End Illustrations.
